(** * Collins dictionary entry parser (scripts/import_mdx.py)

    A shallow embedding of [CollinsHTMLParser] and [parse_collins_html]:
    the three event handlers as state transformers on a record holding the
    parser object's attributes, the finaliser [get_result], and the
    [try]/[except] wrapper around the tokenizer.  *)

From Stdlib Require Import ZArith NArith String Ascii List Lia Bool.
From stdpp Require Import base tactics option list gmap.
Import ListNotations.
Open Scope Z_scope.

(** ** Python strings

    A Python [str] is a sequence of Unicode code points.  Literals of the
    source are all ASCII and are written [str "..."]. *)

Abbreviation pystr := (list N).

Definition str (s : string) : pystr := map N_of_ascii (list_ascii_of_string s).

(** Truth value of a string in a condition ([if pron:]). *)
Definition truthy (s : pystr) : bool :=
  match s with [] => false | _ :: _ => true end.

(** [str.isspace] on one code point: the characters [str.strip()] removes. *)
Definition isspace (c : N) : bool :=
  ((9 <=? c) && (c <=? 13) || (28 <=? c) && (c <=? 32) || (c =? 133) || (c =? 160)
   || (c =? 5760) || (8192 <=? c) && (c <=? 8202) || (c =? 8232) || (c =? 8233)
   || (c =? 8239) || (c =? 8287) || (c =? 12288))%N.

Fixpoint lstrip (s : pystr) : pystr :=
  match s with
  | [] => []
  | c :: s' => if isspace c then lstrip s' else s
  end.

Definition rstrip (s : pystr) : pystr := rev (lstrip (rev s)).

(** [s.strip()] *)
Definition strip (s : pystr) : pystr := rstrip (lstrip s).

Fixpoint startswith (p s : pystr) : bool :=
  match p, s with
  | [], _ => true
  | _ :: _, [] => false
  | a :: p', b :: s' => (a =? b)%N && startswith p' s'
  end.

(** [sub in s] *)
Fixpoint contains (sub s : pystr) : bool :=
  startswith sub s ||
  match s with
  | [] => false
  | _ :: s' => contains sub s'
  end.

(** [sep.join(l)] *)
Fixpoint join (sep : pystr) (l : list pystr) : pystr :=
  match l with
  | [] => []
  | [x] => x
  | x :: rest => x ++ sep ++ join sep rest
  end.

(** One character of the class [[a-zA-Z\-\' ]]. *)
Definition form_char (c : N) : bool :=
  ((97 <=? c) && (c <=? 122) || (65 <=? c) && (c <=? 90)
   || (c =? 45) || (c =? 39) || (c =? 32))%N.

(** [re.match(r'^[a-zA-Z\-\' ]+$', text)] as a truth value.  Without the
    MULTILINE flag, [$] matches at the end of the string and also just
    before a newline that ends the string. *)
Definition re_match_form (text : pystr) : bool :=
  (truthy text && forallb form_char text) ||
  match last text with
  | Some 10%N => let body := removelast text in truthy body && forallb form_char body
  | _ => false
  end.

(** [dict(attrs)]: a later pair overrides an earlier one with the same key. *)
Definition dict (attrs : list (pystr * pystr)) : gmap pystr pystr :=
  foldl (fun m kv => <[kv.1 := kv.2]> m) ∅ attrs.

(** ** The parser object *)

(** The dictionaries appended to a definition's ["examples"] list. *)
Record Example := { example_en : pystr; example_cn : pystr }.

(** The dictionary held in [_current_def]. *)
Record SenseDef := {
  num : pystr;
  pos : pystr;
  cn : pystr;
  en : pystr;
  examples : list Example;
  synonyms : list pystr
}.

Definition set_num (v : pystr) (d : SenseDef) : SenseDef :=
  {| num := v; pos := pos d; cn := cn d; en := en d; examples := examples d; synonyms := synonyms d |}.

Definition set_pos (v : pystr) (d : SenseDef) : SenseDef :=
  {| num := num d; pos := v; cn := cn d; en := en d; examples := examples d; synonyms := synonyms d |}.

Definition set_cn (v : pystr) (d : SenseDef) : SenseDef :=
  {| num := num d; pos := pos d; cn := v; en := en d; examples := examples d; synonyms := synonyms d |}.

Definition set_en (v : pystr) (d : SenseDef) : SenseDef :=
  {| num := num d; pos := pos d; cn := cn d; en := v; examples := examples d; synonyms := synonyms d |}.

Definition set_examples (v : list Example) (d : SenseDef) : SenseDef :=
  {| num := num d; pos := pos d; cn := cn d; en := en d; examples := v; synonyms := synonyms d |}.

(** [self.result] while the entry is being parsed: the two pronunciation
    entries are lists until [get_result] joins them. *)
Record Result := {
  word : pystr;
  phonetic_uk : list pystr;
  phonetic_us : list pystr;
  frequency : Z;
  forms : list pystr;
  definitions : list SenseDef
}.

Definition set_word (v : pystr) (r : Result) : Result :=
  {| word := v; phonetic_uk := phonetic_uk r; phonetic_us := phonetic_us r; frequency := frequency r;
     forms := forms r; definitions := definitions r |}.

Definition set_phonetic_uk (v : list pystr) (r : Result) : Result :=
  {| word := word r; phonetic_uk := v; phonetic_us := phonetic_us r; frequency := frequency r;
     forms := forms r; definitions := definitions r |}.

Definition set_phonetic_us (v : list pystr) (r : Result) : Result :=
  {| word := word r; phonetic_uk := phonetic_uk r; phonetic_us := v; frequency := frequency r;
     forms := forms r; definitions := definitions r |}.

Definition set_forms (v : list pystr) (r : Result) : Result :=
  {| word := word r; phonetic_uk := phonetic_uk r; phonetic_us := phonetic_us r; frequency := frequency r;
     forms := v; definitions := definitions r |}.

Definition set_definitions (v : list SenseDef) (r : Result) : Result :=
  {| word := word r; phonetic_uk := phonetic_uk r; phonetic_us := phonetic_us r; frequency := frequency r;
     forms := forms r; definitions := v |}.

Record Parser := {
  result : Result;
  _tag_stack : list (pystr * pystr);
  _in_word_key : bool;
  _in_pron_uk : bool;
  _in_pron_us : bool;
  _pron_uk_depth : Z;
  _pron_us_depth : Z;
  _current_pron_uk : pystr;
  _current_pron_us : pystr;
  _in_form_inflected : bool;
  _in_orth : bool;
  _orth_depth : Z;
  _in_example : bool;
  _in_caption : bool;
  _in_def_cn : bool;
  _def_cn_depth : Z;
  _in_chinese_text : bool;
  _chinese_text_depth : Z;
  _in_num : bool;
  _in_st : bool;
  _in_li : bool;
  _in_li_p : bool;
  _li_p_count : Z;
  _current_def : option SenseDef;
  _current_example_en : pystr;
  _current_example_cn : pystr;
  _collecting_en_def : bool;
  _frequency_count : Z
}.

Definition set_result (v : Result) (self : Parser) : Parser :=
  {| result := v; _tag_stack := _tag_stack self; _in_word_key := _in_word_key self;
     _in_pron_uk := _in_pron_uk self; _in_pron_us := _in_pron_us self; _pron_uk_depth := _pron_uk_depth self;
     _pron_us_depth := _pron_us_depth self; _current_pron_uk := _current_pron_uk self;
     _current_pron_us := _current_pron_us self; _in_form_inflected := _in_form_inflected self;
     _in_orth := _in_orth self; _orth_depth := _orth_depth self; _in_example := _in_example self;
     _in_caption := _in_caption self; _in_def_cn := _in_def_cn self; _def_cn_depth := _def_cn_depth self;
     _in_chinese_text := _in_chinese_text self; _chinese_text_depth := _chinese_text_depth self;
     _in_num := _in_num self; _in_st := _in_st self; _in_li := _in_li self; _in_li_p := _in_li_p self;
     _li_p_count := _li_p_count self; _current_def := _current_def self;
     _current_example_en := _current_example_en self; _current_example_cn := _current_example_cn self;
     _collecting_en_def := _collecting_en_def self; _frequency_count := _frequency_count self |}.

Definition set_tag_stack (v : list (pystr * pystr)) (self : Parser) : Parser :=
  {| result := result self; _tag_stack := v; _in_word_key := _in_word_key self;
     _in_pron_uk := _in_pron_uk self; _in_pron_us := _in_pron_us self; _pron_uk_depth := _pron_uk_depth self;
     _pron_us_depth := _pron_us_depth self; _current_pron_uk := _current_pron_uk self;
     _current_pron_us := _current_pron_us self; _in_form_inflected := _in_form_inflected self;
     _in_orth := _in_orth self; _orth_depth := _orth_depth self; _in_example := _in_example self;
     _in_caption := _in_caption self; _in_def_cn := _in_def_cn self; _def_cn_depth := _def_cn_depth self;
     _in_chinese_text := _in_chinese_text self; _chinese_text_depth := _chinese_text_depth self;
     _in_num := _in_num self; _in_st := _in_st self; _in_li := _in_li self; _in_li_p := _in_li_p self;
     _li_p_count := _li_p_count self; _current_def := _current_def self;
     _current_example_en := _current_example_en self; _current_example_cn := _current_example_cn self;
     _collecting_en_def := _collecting_en_def self; _frequency_count := _frequency_count self |}.

Definition set_in_word_key (v : bool) (self : Parser) : Parser :=
  {| result := result self; _tag_stack := _tag_stack self; _in_word_key := v; _in_pron_uk := _in_pron_uk self;
     _in_pron_us := _in_pron_us self; _pron_uk_depth := _pron_uk_depth self;
     _pron_us_depth := _pron_us_depth self; _current_pron_uk := _current_pron_uk self;
     _current_pron_us := _current_pron_us self; _in_form_inflected := _in_form_inflected self;
     _in_orth := _in_orth self; _orth_depth := _orth_depth self; _in_example := _in_example self;
     _in_caption := _in_caption self; _in_def_cn := _in_def_cn self; _def_cn_depth := _def_cn_depth self;
     _in_chinese_text := _in_chinese_text self; _chinese_text_depth := _chinese_text_depth self;
     _in_num := _in_num self; _in_st := _in_st self; _in_li := _in_li self; _in_li_p := _in_li_p self;
     _li_p_count := _li_p_count self; _current_def := _current_def self;
     _current_example_en := _current_example_en self; _current_example_cn := _current_example_cn self;
     _collecting_en_def := _collecting_en_def self; _frequency_count := _frequency_count self |}.

Definition set_in_pron_uk (v : bool) (self : Parser) : Parser :=
  {| result := result self; _tag_stack := _tag_stack self; _in_word_key := _in_word_key self;
     _in_pron_uk := v; _in_pron_us := _in_pron_us self; _pron_uk_depth := _pron_uk_depth self;
     _pron_us_depth := _pron_us_depth self; _current_pron_uk := _current_pron_uk self;
     _current_pron_us := _current_pron_us self; _in_form_inflected := _in_form_inflected self;
     _in_orth := _in_orth self; _orth_depth := _orth_depth self; _in_example := _in_example self;
     _in_caption := _in_caption self; _in_def_cn := _in_def_cn self; _def_cn_depth := _def_cn_depth self;
     _in_chinese_text := _in_chinese_text self; _chinese_text_depth := _chinese_text_depth self;
     _in_num := _in_num self; _in_st := _in_st self; _in_li := _in_li self; _in_li_p := _in_li_p self;
     _li_p_count := _li_p_count self; _current_def := _current_def self;
     _current_example_en := _current_example_en self; _current_example_cn := _current_example_cn self;
     _collecting_en_def := _collecting_en_def self; _frequency_count := _frequency_count self |}.

Definition set_in_pron_us (v : bool) (self : Parser) : Parser :=
  {| result := result self; _tag_stack := _tag_stack self; _in_word_key := _in_word_key self;
     _in_pron_uk := _in_pron_uk self; _in_pron_us := v; _pron_uk_depth := _pron_uk_depth self;
     _pron_us_depth := _pron_us_depth self; _current_pron_uk := _current_pron_uk self;
     _current_pron_us := _current_pron_us self; _in_form_inflected := _in_form_inflected self;
     _in_orth := _in_orth self; _orth_depth := _orth_depth self; _in_example := _in_example self;
     _in_caption := _in_caption self; _in_def_cn := _in_def_cn self; _def_cn_depth := _def_cn_depth self;
     _in_chinese_text := _in_chinese_text self; _chinese_text_depth := _chinese_text_depth self;
     _in_num := _in_num self; _in_st := _in_st self; _in_li := _in_li self; _in_li_p := _in_li_p self;
     _li_p_count := _li_p_count self; _current_def := _current_def self;
     _current_example_en := _current_example_en self; _current_example_cn := _current_example_cn self;
     _collecting_en_def := _collecting_en_def self; _frequency_count := _frequency_count self |}.

Definition set_pron_uk_depth (v : Z) (self : Parser) : Parser :=
  {| result := result self; _tag_stack := _tag_stack self; _in_word_key := _in_word_key self;
     _in_pron_uk := _in_pron_uk self; _in_pron_us := _in_pron_us self; _pron_uk_depth := v;
     _pron_us_depth := _pron_us_depth self; _current_pron_uk := _current_pron_uk self;
     _current_pron_us := _current_pron_us self; _in_form_inflected := _in_form_inflected self;
     _in_orth := _in_orth self; _orth_depth := _orth_depth self; _in_example := _in_example self;
     _in_caption := _in_caption self; _in_def_cn := _in_def_cn self; _def_cn_depth := _def_cn_depth self;
     _in_chinese_text := _in_chinese_text self; _chinese_text_depth := _chinese_text_depth self;
     _in_num := _in_num self; _in_st := _in_st self; _in_li := _in_li self; _in_li_p := _in_li_p self;
     _li_p_count := _li_p_count self; _current_def := _current_def self;
     _current_example_en := _current_example_en self; _current_example_cn := _current_example_cn self;
     _collecting_en_def := _collecting_en_def self; _frequency_count := _frequency_count self |}.

Definition set_pron_us_depth (v : Z) (self : Parser) : Parser :=
  {| result := result self; _tag_stack := _tag_stack self; _in_word_key := _in_word_key self;
     _in_pron_uk := _in_pron_uk self; _in_pron_us := _in_pron_us self; _pron_uk_depth := _pron_uk_depth self;
     _pron_us_depth := v; _current_pron_uk := _current_pron_uk self;
     _current_pron_us := _current_pron_us self; _in_form_inflected := _in_form_inflected self;
     _in_orth := _in_orth self; _orth_depth := _orth_depth self; _in_example := _in_example self;
     _in_caption := _in_caption self; _in_def_cn := _in_def_cn self; _def_cn_depth := _def_cn_depth self;
     _in_chinese_text := _in_chinese_text self; _chinese_text_depth := _chinese_text_depth self;
     _in_num := _in_num self; _in_st := _in_st self; _in_li := _in_li self; _in_li_p := _in_li_p self;
     _li_p_count := _li_p_count self; _current_def := _current_def self;
     _current_example_en := _current_example_en self; _current_example_cn := _current_example_cn self;
     _collecting_en_def := _collecting_en_def self; _frequency_count := _frequency_count self |}.

Definition set_current_pron_uk (v : pystr) (self : Parser) : Parser :=
  {| result := result self; _tag_stack := _tag_stack self; _in_word_key := _in_word_key self;
     _in_pron_uk := _in_pron_uk self; _in_pron_us := _in_pron_us self; _pron_uk_depth := _pron_uk_depth self;
     _pron_us_depth := _pron_us_depth self; _current_pron_uk := v; _current_pron_us := _current_pron_us self;
     _in_form_inflected := _in_form_inflected self; _in_orth := _in_orth self;
     _orth_depth := _orth_depth self; _in_example := _in_example self; _in_caption := _in_caption self;
     _in_def_cn := _in_def_cn self; _def_cn_depth := _def_cn_depth self;
     _in_chinese_text := _in_chinese_text self; _chinese_text_depth := _chinese_text_depth self;
     _in_num := _in_num self; _in_st := _in_st self; _in_li := _in_li self; _in_li_p := _in_li_p self;
     _li_p_count := _li_p_count self; _current_def := _current_def self;
     _current_example_en := _current_example_en self; _current_example_cn := _current_example_cn self;
     _collecting_en_def := _collecting_en_def self; _frequency_count := _frequency_count self |}.

Definition set_current_pron_us (v : pystr) (self : Parser) : Parser :=
  {| result := result self; _tag_stack := _tag_stack self; _in_word_key := _in_word_key self;
     _in_pron_uk := _in_pron_uk self; _in_pron_us := _in_pron_us self; _pron_uk_depth := _pron_uk_depth self;
     _pron_us_depth := _pron_us_depth self; _current_pron_uk := _current_pron_uk self; _current_pron_us := v;
     _in_form_inflected := _in_form_inflected self; _in_orth := _in_orth self;
     _orth_depth := _orth_depth self; _in_example := _in_example self; _in_caption := _in_caption self;
     _in_def_cn := _in_def_cn self; _def_cn_depth := _def_cn_depth self;
     _in_chinese_text := _in_chinese_text self; _chinese_text_depth := _chinese_text_depth self;
     _in_num := _in_num self; _in_st := _in_st self; _in_li := _in_li self; _in_li_p := _in_li_p self;
     _li_p_count := _li_p_count self; _current_def := _current_def self;
     _current_example_en := _current_example_en self; _current_example_cn := _current_example_cn self;
     _collecting_en_def := _collecting_en_def self; _frequency_count := _frequency_count self |}.

Definition set_in_form_inflected (v : bool) (self : Parser) : Parser :=
  {| result := result self; _tag_stack := _tag_stack self; _in_word_key := _in_word_key self;
     _in_pron_uk := _in_pron_uk self; _in_pron_us := _in_pron_us self; _pron_uk_depth := _pron_uk_depth self;
     _pron_us_depth := _pron_us_depth self; _current_pron_uk := _current_pron_uk self;
     _current_pron_us := _current_pron_us self; _in_form_inflected := v; _in_orth := _in_orth self;
     _orth_depth := _orth_depth self; _in_example := _in_example self; _in_caption := _in_caption self;
     _in_def_cn := _in_def_cn self; _def_cn_depth := _def_cn_depth self;
     _in_chinese_text := _in_chinese_text self; _chinese_text_depth := _chinese_text_depth self;
     _in_num := _in_num self; _in_st := _in_st self; _in_li := _in_li self; _in_li_p := _in_li_p self;
     _li_p_count := _li_p_count self; _current_def := _current_def self;
     _current_example_en := _current_example_en self; _current_example_cn := _current_example_cn self;
     _collecting_en_def := _collecting_en_def self; _frequency_count := _frequency_count self |}.

Definition set_in_orth (v : bool) (self : Parser) : Parser :=
  {| result := result self; _tag_stack := _tag_stack self; _in_word_key := _in_word_key self;
     _in_pron_uk := _in_pron_uk self; _in_pron_us := _in_pron_us self; _pron_uk_depth := _pron_uk_depth self;
     _pron_us_depth := _pron_us_depth self; _current_pron_uk := _current_pron_uk self;
     _current_pron_us := _current_pron_us self; _in_form_inflected := _in_form_inflected self; _in_orth := v;
     _orth_depth := _orth_depth self; _in_example := _in_example self; _in_caption := _in_caption self;
     _in_def_cn := _in_def_cn self; _def_cn_depth := _def_cn_depth self;
     _in_chinese_text := _in_chinese_text self; _chinese_text_depth := _chinese_text_depth self;
     _in_num := _in_num self; _in_st := _in_st self; _in_li := _in_li self; _in_li_p := _in_li_p self;
     _li_p_count := _li_p_count self; _current_def := _current_def self;
     _current_example_en := _current_example_en self; _current_example_cn := _current_example_cn self;
     _collecting_en_def := _collecting_en_def self; _frequency_count := _frequency_count self |}.

Definition set_orth_depth (v : Z) (self : Parser) : Parser :=
  {| result := result self; _tag_stack := _tag_stack self; _in_word_key := _in_word_key self;
     _in_pron_uk := _in_pron_uk self; _in_pron_us := _in_pron_us self; _pron_uk_depth := _pron_uk_depth self;
     _pron_us_depth := _pron_us_depth self; _current_pron_uk := _current_pron_uk self;
     _current_pron_us := _current_pron_us self; _in_form_inflected := _in_form_inflected self;
     _in_orth := _in_orth self; _orth_depth := v; _in_example := _in_example self;
     _in_caption := _in_caption self; _in_def_cn := _in_def_cn self; _def_cn_depth := _def_cn_depth self;
     _in_chinese_text := _in_chinese_text self; _chinese_text_depth := _chinese_text_depth self;
     _in_num := _in_num self; _in_st := _in_st self; _in_li := _in_li self; _in_li_p := _in_li_p self;
     _li_p_count := _li_p_count self; _current_def := _current_def self;
     _current_example_en := _current_example_en self; _current_example_cn := _current_example_cn self;
     _collecting_en_def := _collecting_en_def self; _frequency_count := _frequency_count self |}.

Definition set_in_example (v : bool) (self : Parser) : Parser :=
  {| result := result self; _tag_stack := _tag_stack self; _in_word_key := _in_word_key self;
     _in_pron_uk := _in_pron_uk self; _in_pron_us := _in_pron_us self; _pron_uk_depth := _pron_uk_depth self;
     _pron_us_depth := _pron_us_depth self; _current_pron_uk := _current_pron_uk self;
     _current_pron_us := _current_pron_us self; _in_form_inflected := _in_form_inflected self;
     _in_orth := _in_orth self; _orth_depth := _orth_depth self; _in_example := v;
     _in_caption := _in_caption self; _in_def_cn := _in_def_cn self; _def_cn_depth := _def_cn_depth self;
     _in_chinese_text := _in_chinese_text self; _chinese_text_depth := _chinese_text_depth self;
     _in_num := _in_num self; _in_st := _in_st self; _in_li := _in_li self; _in_li_p := _in_li_p self;
     _li_p_count := _li_p_count self; _current_def := _current_def self;
     _current_example_en := _current_example_en self; _current_example_cn := _current_example_cn self;
     _collecting_en_def := _collecting_en_def self; _frequency_count := _frequency_count self |}.

Definition set_in_caption (v : bool) (self : Parser) : Parser :=
  {| result := result self; _tag_stack := _tag_stack self; _in_word_key := _in_word_key self;
     _in_pron_uk := _in_pron_uk self; _in_pron_us := _in_pron_us self; _pron_uk_depth := _pron_uk_depth self;
     _pron_us_depth := _pron_us_depth self; _current_pron_uk := _current_pron_uk self;
     _current_pron_us := _current_pron_us self; _in_form_inflected := _in_form_inflected self;
     _in_orth := _in_orth self; _orth_depth := _orth_depth self; _in_example := _in_example self;
     _in_caption := v; _in_def_cn := _in_def_cn self; _def_cn_depth := _def_cn_depth self;
     _in_chinese_text := _in_chinese_text self; _chinese_text_depth := _chinese_text_depth self;
     _in_num := _in_num self; _in_st := _in_st self; _in_li := _in_li self; _in_li_p := _in_li_p self;
     _li_p_count := _li_p_count self; _current_def := _current_def self;
     _current_example_en := _current_example_en self; _current_example_cn := _current_example_cn self;
     _collecting_en_def := _collecting_en_def self; _frequency_count := _frequency_count self |}.

Definition set_in_def_cn (v : bool) (self : Parser) : Parser :=
  {| result := result self; _tag_stack := _tag_stack self; _in_word_key := _in_word_key self;
     _in_pron_uk := _in_pron_uk self; _in_pron_us := _in_pron_us self; _pron_uk_depth := _pron_uk_depth self;
     _pron_us_depth := _pron_us_depth self; _current_pron_uk := _current_pron_uk self;
     _current_pron_us := _current_pron_us self; _in_form_inflected := _in_form_inflected self;
     _in_orth := _in_orth self; _orth_depth := _orth_depth self; _in_example := _in_example self;
     _in_caption := _in_caption self; _in_def_cn := v; _def_cn_depth := _def_cn_depth self;
     _in_chinese_text := _in_chinese_text self; _chinese_text_depth := _chinese_text_depth self;
     _in_num := _in_num self; _in_st := _in_st self; _in_li := _in_li self; _in_li_p := _in_li_p self;
     _li_p_count := _li_p_count self; _current_def := _current_def self;
     _current_example_en := _current_example_en self; _current_example_cn := _current_example_cn self;
     _collecting_en_def := _collecting_en_def self; _frequency_count := _frequency_count self |}.

Definition set_def_cn_depth (v : Z) (self : Parser) : Parser :=
  {| result := result self; _tag_stack := _tag_stack self; _in_word_key := _in_word_key self;
     _in_pron_uk := _in_pron_uk self; _in_pron_us := _in_pron_us self; _pron_uk_depth := _pron_uk_depth self;
     _pron_us_depth := _pron_us_depth self; _current_pron_uk := _current_pron_uk self;
     _current_pron_us := _current_pron_us self; _in_form_inflected := _in_form_inflected self;
     _in_orth := _in_orth self; _orth_depth := _orth_depth self; _in_example := _in_example self;
     _in_caption := _in_caption self; _in_def_cn := _in_def_cn self; _def_cn_depth := v;
     _in_chinese_text := _in_chinese_text self; _chinese_text_depth := _chinese_text_depth self;
     _in_num := _in_num self; _in_st := _in_st self; _in_li := _in_li self; _in_li_p := _in_li_p self;
     _li_p_count := _li_p_count self; _current_def := _current_def self;
     _current_example_en := _current_example_en self; _current_example_cn := _current_example_cn self;
     _collecting_en_def := _collecting_en_def self; _frequency_count := _frequency_count self |}.

Definition set_in_chinese_text (v : bool) (self : Parser) : Parser :=
  {| result := result self; _tag_stack := _tag_stack self; _in_word_key := _in_word_key self;
     _in_pron_uk := _in_pron_uk self; _in_pron_us := _in_pron_us self; _pron_uk_depth := _pron_uk_depth self;
     _pron_us_depth := _pron_us_depth self; _current_pron_uk := _current_pron_uk self;
     _current_pron_us := _current_pron_us self; _in_form_inflected := _in_form_inflected self;
     _in_orth := _in_orth self; _orth_depth := _orth_depth self; _in_example := _in_example self;
     _in_caption := _in_caption self; _in_def_cn := _in_def_cn self; _def_cn_depth := _def_cn_depth self;
     _in_chinese_text := v; _chinese_text_depth := _chinese_text_depth self; _in_num := _in_num self;
     _in_st := _in_st self; _in_li := _in_li self; _in_li_p := _in_li_p self; _li_p_count := _li_p_count self;
     _current_def := _current_def self; _current_example_en := _current_example_en self;
     _current_example_cn := _current_example_cn self; _collecting_en_def := _collecting_en_def self;
     _frequency_count := _frequency_count self |}.

Definition set_chinese_text_depth (v : Z) (self : Parser) : Parser :=
  {| result := result self; _tag_stack := _tag_stack self; _in_word_key := _in_word_key self;
     _in_pron_uk := _in_pron_uk self; _in_pron_us := _in_pron_us self; _pron_uk_depth := _pron_uk_depth self;
     _pron_us_depth := _pron_us_depth self; _current_pron_uk := _current_pron_uk self;
     _current_pron_us := _current_pron_us self; _in_form_inflected := _in_form_inflected self;
     _in_orth := _in_orth self; _orth_depth := _orth_depth self; _in_example := _in_example self;
     _in_caption := _in_caption self; _in_def_cn := _in_def_cn self; _def_cn_depth := _def_cn_depth self;
     _in_chinese_text := _in_chinese_text self; _chinese_text_depth := v; _in_num := _in_num self;
     _in_st := _in_st self; _in_li := _in_li self; _in_li_p := _in_li_p self; _li_p_count := _li_p_count self;
     _current_def := _current_def self; _current_example_en := _current_example_en self;
     _current_example_cn := _current_example_cn self; _collecting_en_def := _collecting_en_def self;
     _frequency_count := _frequency_count self |}.

Definition set_in_num (v : bool) (self : Parser) : Parser :=
  {| result := result self; _tag_stack := _tag_stack self; _in_word_key := _in_word_key self;
     _in_pron_uk := _in_pron_uk self; _in_pron_us := _in_pron_us self; _pron_uk_depth := _pron_uk_depth self;
     _pron_us_depth := _pron_us_depth self; _current_pron_uk := _current_pron_uk self;
     _current_pron_us := _current_pron_us self; _in_form_inflected := _in_form_inflected self;
     _in_orth := _in_orth self; _orth_depth := _orth_depth self; _in_example := _in_example self;
     _in_caption := _in_caption self; _in_def_cn := _in_def_cn self; _def_cn_depth := _def_cn_depth self;
     _in_chinese_text := _in_chinese_text self; _chinese_text_depth := _chinese_text_depth self; _in_num := v;
     _in_st := _in_st self; _in_li := _in_li self; _in_li_p := _in_li_p self; _li_p_count := _li_p_count self;
     _current_def := _current_def self; _current_example_en := _current_example_en self;
     _current_example_cn := _current_example_cn self; _collecting_en_def := _collecting_en_def self;
     _frequency_count := _frequency_count self |}.

Definition set_in_st (v : bool) (self : Parser) : Parser :=
  {| result := result self; _tag_stack := _tag_stack self; _in_word_key := _in_word_key self;
     _in_pron_uk := _in_pron_uk self; _in_pron_us := _in_pron_us self; _pron_uk_depth := _pron_uk_depth self;
     _pron_us_depth := _pron_us_depth self; _current_pron_uk := _current_pron_uk self;
     _current_pron_us := _current_pron_us self; _in_form_inflected := _in_form_inflected self;
     _in_orth := _in_orth self; _orth_depth := _orth_depth self; _in_example := _in_example self;
     _in_caption := _in_caption self; _in_def_cn := _in_def_cn self; _def_cn_depth := _def_cn_depth self;
     _in_chinese_text := _in_chinese_text self; _chinese_text_depth := _chinese_text_depth self;
     _in_num := _in_num self; _in_st := v; _in_li := _in_li self; _in_li_p := _in_li_p self;
     _li_p_count := _li_p_count self; _current_def := _current_def self;
     _current_example_en := _current_example_en self; _current_example_cn := _current_example_cn self;
     _collecting_en_def := _collecting_en_def self; _frequency_count := _frequency_count self |}.

Definition set_in_li (v : bool) (self : Parser) : Parser :=
  {| result := result self; _tag_stack := _tag_stack self; _in_word_key := _in_word_key self;
     _in_pron_uk := _in_pron_uk self; _in_pron_us := _in_pron_us self; _pron_uk_depth := _pron_uk_depth self;
     _pron_us_depth := _pron_us_depth self; _current_pron_uk := _current_pron_uk self;
     _current_pron_us := _current_pron_us self; _in_form_inflected := _in_form_inflected self;
     _in_orth := _in_orth self; _orth_depth := _orth_depth self; _in_example := _in_example self;
     _in_caption := _in_caption self; _in_def_cn := _in_def_cn self; _def_cn_depth := _def_cn_depth self;
     _in_chinese_text := _in_chinese_text self; _chinese_text_depth := _chinese_text_depth self;
     _in_num := _in_num self; _in_st := _in_st self; _in_li := v; _in_li_p := _in_li_p self;
     _li_p_count := _li_p_count self; _current_def := _current_def self;
     _current_example_en := _current_example_en self; _current_example_cn := _current_example_cn self;
     _collecting_en_def := _collecting_en_def self; _frequency_count := _frequency_count self |}.

Definition set_in_li_p (v : bool) (self : Parser) : Parser :=
  {| result := result self; _tag_stack := _tag_stack self; _in_word_key := _in_word_key self;
     _in_pron_uk := _in_pron_uk self; _in_pron_us := _in_pron_us self; _pron_uk_depth := _pron_uk_depth self;
     _pron_us_depth := _pron_us_depth self; _current_pron_uk := _current_pron_uk self;
     _current_pron_us := _current_pron_us self; _in_form_inflected := _in_form_inflected self;
     _in_orth := _in_orth self; _orth_depth := _orth_depth self; _in_example := _in_example self;
     _in_caption := _in_caption self; _in_def_cn := _in_def_cn self; _def_cn_depth := _def_cn_depth self;
     _in_chinese_text := _in_chinese_text self; _chinese_text_depth := _chinese_text_depth self;
     _in_num := _in_num self; _in_st := _in_st self; _in_li := _in_li self; _in_li_p := v;
     _li_p_count := _li_p_count self; _current_def := _current_def self;
     _current_example_en := _current_example_en self; _current_example_cn := _current_example_cn self;
     _collecting_en_def := _collecting_en_def self; _frequency_count := _frequency_count self |}.

Definition set_li_p_count (v : Z) (self : Parser) : Parser :=
  {| result := result self; _tag_stack := _tag_stack self; _in_word_key := _in_word_key self;
     _in_pron_uk := _in_pron_uk self; _in_pron_us := _in_pron_us self; _pron_uk_depth := _pron_uk_depth self;
     _pron_us_depth := _pron_us_depth self; _current_pron_uk := _current_pron_uk self;
     _current_pron_us := _current_pron_us self; _in_form_inflected := _in_form_inflected self;
     _in_orth := _in_orth self; _orth_depth := _orth_depth self; _in_example := _in_example self;
     _in_caption := _in_caption self; _in_def_cn := _in_def_cn self; _def_cn_depth := _def_cn_depth self;
     _in_chinese_text := _in_chinese_text self; _chinese_text_depth := _chinese_text_depth self;
     _in_num := _in_num self; _in_st := _in_st self; _in_li := _in_li self; _in_li_p := _in_li_p self;
     _li_p_count := v; _current_def := _current_def self; _current_example_en := _current_example_en self;
     _current_example_cn := _current_example_cn self; _collecting_en_def := _collecting_en_def self;
     _frequency_count := _frequency_count self |}.

Definition set_current_def (v : option SenseDef) (self : Parser) : Parser :=
  {| result := result self; _tag_stack := _tag_stack self; _in_word_key := _in_word_key self;
     _in_pron_uk := _in_pron_uk self; _in_pron_us := _in_pron_us self; _pron_uk_depth := _pron_uk_depth self;
     _pron_us_depth := _pron_us_depth self; _current_pron_uk := _current_pron_uk self;
     _current_pron_us := _current_pron_us self; _in_form_inflected := _in_form_inflected self;
     _in_orth := _in_orth self; _orth_depth := _orth_depth self; _in_example := _in_example self;
     _in_caption := _in_caption self; _in_def_cn := _in_def_cn self; _def_cn_depth := _def_cn_depth self;
     _in_chinese_text := _in_chinese_text self; _chinese_text_depth := _chinese_text_depth self;
     _in_num := _in_num self; _in_st := _in_st self; _in_li := _in_li self; _in_li_p := _in_li_p self;
     _li_p_count := _li_p_count self; _current_def := v; _current_example_en := _current_example_en self;
     _current_example_cn := _current_example_cn self; _collecting_en_def := _collecting_en_def self;
     _frequency_count := _frequency_count self |}.

Definition set_current_example_en (v : pystr) (self : Parser) : Parser :=
  {| result := result self; _tag_stack := _tag_stack self; _in_word_key := _in_word_key self;
     _in_pron_uk := _in_pron_uk self; _in_pron_us := _in_pron_us self; _pron_uk_depth := _pron_uk_depth self;
     _pron_us_depth := _pron_us_depth self; _current_pron_uk := _current_pron_uk self;
     _current_pron_us := _current_pron_us self; _in_form_inflected := _in_form_inflected self;
     _in_orth := _in_orth self; _orth_depth := _orth_depth self; _in_example := _in_example self;
     _in_caption := _in_caption self; _in_def_cn := _in_def_cn self; _def_cn_depth := _def_cn_depth self;
     _in_chinese_text := _in_chinese_text self; _chinese_text_depth := _chinese_text_depth self;
     _in_num := _in_num self; _in_st := _in_st self; _in_li := _in_li self; _in_li_p := _in_li_p self;
     _li_p_count := _li_p_count self; _current_def := _current_def self; _current_example_en := v;
     _current_example_cn := _current_example_cn self; _collecting_en_def := _collecting_en_def self;
     _frequency_count := _frequency_count self |}.

Definition set_current_example_cn (v : pystr) (self : Parser) : Parser :=
  {| result := result self; _tag_stack := _tag_stack self; _in_word_key := _in_word_key self;
     _in_pron_uk := _in_pron_uk self; _in_pron_us := _in_pron_us self; _pron_uk_depth := _pron_uk_depth self;
     _pron_us_depth := _pron_us_depth self; _current_pron_uk := _current_pron_uk self;
     _current_pron_us := _current_pron_us self; _in_form_inflected := _in_form_inflected self;
     _in_orth := _in_orth self; _orth_depth := _orth_depth self; _in_example := _in_example self;
     _in_caption := _in_caption self; _in_def_cn := _in_def_cn self; _def_cn_depth := _def_cn_depth self;
     _in_chinese_text := _in_chinese_text self; _chinese_text_depth := _chinese_text_depth self;
     _in_num := _in_num self; _in_st := _in_st self; _in_li := _in_li self; _in_li_p := _in_li_p self;
     _li_p_count := _li_p_count self; _current_def := _current_def self;
     _current_example_en := _current_example_en self; _current_example_cn := v;
     _collecting_en_def := _collecting_en_def self; _frequency_count := _frequency_count self |}.

Definition set_collecting_en_def (v : bool) (self : Parser) : Parser :=
  {| result := result self; _tag_stack := _tag_stack self; _in_word_key := _in_word_key self;
     _in_pron_uk := _in_pron_uk self; _in_pron_us := _in_pron_us self; _pron_uk_depth := _pron_uk_depth self;
     _pron_us_depth := _pron_us_depth self; _current_pron_uk := _current_pron_uk self;
     _current_pron_us := _current_pron_us self; _in_form_inflected := _in_form_inflected self;
     _in_orth := _in_orth self; _orth_depth := _orth_depth self; _in_example := _in_example self;
     _in_caption := _in_caption self; _in_def_cn := _in_def_cn self; _def_cn_depth := _def_cn_depth self;
     _in_chinese_text := _in_chinese_text self; _chinese_text_depth := _chinese_text_depth self;
     _in_num := _in_num self; _in_st := _in_st self; _in_li := _in_li self; _in_li_p := _in_li_p self;
     _li_p_count := _li_p_count self; _current_def := _current_def self;
     _current_example_en := _current_example_en self; _current_example_cn := _current_example_cn self;
     _collecting_en_def := v; _frequency_count := _frequency_count self |}.

Definition set_frequency_count (v : Z) (self : Parser) : Parser :=
  {| result := result self; _tag_stack := _tag_stack self; _in_word_key := _in_word_key self;
     _in_pron_uk := _in_pron_uk self; _in_pron_us := _in_pron_us self; _pron_uk_depth := _pron_uk_depth self;
     _pron_us_depth := _pron_us_depth self; _current_pron_uk := _current_pron_uk self;
     _current_pron_us := _current_pron_us self; _in_form_inflected := _in_form_inflected self;
     _in_orth := _in_orth self; _orth_depth := _orth_depth self; _in_example := _in_example self;
     _in_caption := _in_caption self; _in_def_cn := _in_def_cn self; _def_cn_depth := _def_cn_depth self;
     _in_chinese_text := _in_chinese_text self; _chinese_text_depth := _chinese_text_depth self;
     _in_num := _in_num self; _in_st := _in_st self; _in_li := _in_li self; _in_li_p := _in_li_p self;
     _li_p_count := _li_p_count self; _current_def := _current_def self;
     _current_example_en := _current_example_en self; _current_example_cn := _current_example_cn self;
     _collecting_en_def := _collecting_en_def self; _frequency_count := v |}.


(** [CollinsHTMLParser.__init__] *)
Definition init : Parser :=
  {| result := {| word := []; phonetic_uk := []; phonetic_us := []; frequency := 0;
                  forms := []; definitions := [] |};
     _tag_stack := [];
     _in_word_key := false; _in_pron_uk := false; _in_pron_us := false;
     _pron_uk_depth := 0; _pron_us_depth := 0;
     _current_pron_uk := []; _current_pron_us := [];
     _in_form_inflected := false; _in_orth := false; _orth_depth := 0;
     _in_example := false; _in_caption := false;
     _in_def_cn := false; _def_cn_depth := 0;
     _in_chinese_text := false; _chinese_text_depth := 0;
     _in_num := false; _in_st := false;
     _in_li := false; _in_li_p := false; _li_p_count := 0;
     _current_def := None;
     _current_example_en := []; _current_example_cn := [];
     _collecting_en_def := false;
     _frequency_count := 0 |}.

(** [len(self._tag_stack)] *)
Definition depth (self : Parser) : Z := Z.of_nat (length (_tag_stack self)).

(** [self._tag_stack[-1][1]], read only where the stack is known non-empty. *)
Definition top_class (self : Parser) : pystr :=
  match last (_tag_stack self) with
  | Some frame => frame.2
  | None => []
  end.

(** [bool(self._tag_stack)] *)
Definition has_frames (self : Parser) : bool :=
  match _tag_stack self with [] => false | _ :: _ => true end.

(** The fresh dictionary a definition block starts with. *)
Definition new_def : SenseDef :=
  {| num := []; pos := []; cn := []; en := []; examples := []; synonyms := [] |}.

(** [dict(attrs).get("class", "")] *)
Definition class_of (attrs : list (pystr * pystr)) : pystr :=
  default [] (dict attrs !! str "class").

(** [self._current_def[key] = f(self._current_def[key])], through the
    reference the parser holds. *)
Definition upd_def (f : SenseDef -> SenseDef) (self : Parser) : Parser :=
  set_current_def (f <$> _current_def self) self.

(** [bool(self._current_def)]: a definition dictionary always has its six
    keys, so it is true exactly when it is not [None]. *)
Definition has_def (self : Parser) : bool :=
  match _current_def self with Some _ => true | None => false end.

(** [self._current_def[key]], read only under [has_def]. *)
Definition def_field (f : SenseDef -> pystr) (self : Parser) : pystr :=
  match _current_def self with Some d => f d | None => [] end.

(** The [span] branch of the first [if] chain of [handle_starttag]. *)
Definition start_span (self : Parser) (current_class : pystr) (stack_depth : Z) : Parser :=
  if contains (str "word_key") current_class then
    set_in_word_key true self
  else if contains (str "pron type_uk") current_class then
    set_current_pron_uk [] (set_pron_uk_depth stack_depth (set_in_pron_uk true self))
  else if contains (str "pron type_us") current_class then
    set_current_pron_us [] (set_pron_us_depth stack_depth (set_in_pron_us true self))
  else if bool_decide (current_class = str "num") then
    set_in_num true self
  else if bool_decide (current_class = str "st") then
    set_in_st true self
  else if contains (str "level") current_class && contains (str "roundRed") current_class then
    set_frequency_count (_frequency_count self + 1) self
  else if contains (str "def_cn") current_class && contains (str "cn_before") current_class then
    set_def_cn_depth stack_depth (set_in_def_cn true self)
  else if contains (str "chinese-text") current_class then
    set_chinese_text_depth stack_depth (set_in_chinese_text true self)
  else self.

(** The [div] branch of the first [if] chain of [handle_starttag]. *)
Definition start_div (self : Parser) (current_class : pystr) : Parser :=
  if contains (str "form_inflected") current_class then
    set_in_form_inflected true self
  else if contains (str "collins_en_cn example") current_class then
    set_current_def (Some new_def) (set_in_example true self)
  else if contains (str "caption") current_class && contains (str "hide_cn") current_class then
    set_collecting_en_def true (set_in_caption true self)
  else self.

(** [attrs] is the list of (name, value) pairs of the signature,
    [List[Tuple[str, str]]]. *)
Definition handle_starttag (self : Parser) (tag : pystr) (attrs : list (pystr * pystr)) : Parser :=
  let current_class := class_of attrs in
  let self := set_tag_stack (_tag_stack self ++ [(tag, current_class)]) self in
  let stack_depth := depth self in
  let self :=
    if bool_decide (tag = str "span") then start_span self current_class stack_depth
    else if bool_decide (tag = str "div") then start_div self current_class
    else if bool_decide (tag = str "a") then
      if _in_form_inflected self && contains (str "orth") current_class then
        set_orth_depth stack_depth (set_in_orth true self)
      else self
    else self in
  if bool_decide (tag = str "span") && _in_form_inflected self
     && contains (str "orth") current_class then
    set_orth_depth stack_depth (set_in_orth true self)
  else if bool_decide (tag = str "li") then
    if _in_example self then
      set_current_example_cn []
        (set_current_example_en [] (set_li_p_count 0 (set_in_li true self)))
    else self
  else if bool_decide (tag = str "p") then
    if _in_li self then
      set_li_p_count (_li_p_count self + 1) (set_in_li_p true self)
    else self
  else self.

(** The [span] branch of [handle_endtag]. *)
Definition end_span (self : Parser) (stack_depth : Z) : Parser :=
  if _in_pron_uk self && (stack_depth =? _pron_uk_depth self) then
    let pron := strip (_current_pron_uk self) in
    let self :=
      if truthy pron then
        set_result (set_phonetic_uk (phonetic_uk (result self) ++ [pron]) (result self)) self
      else self in
    set_current_pron_uk [] (set_in_pron_uk false self)
  else if _in_pron_us self && (stack_depth =? _pron_us_depth self) then
    let pron := strip (_current_pron_us self) in
    let self :=
      if truthy pron then
        set_result (set_phonetic_us (phonetic_us (result self) ++ [pron]) (result self)) self
      else self in
    set_current_pron_us [] (set_in_pron_us false self)
  else if _in_word_key self then set_in_word_key false self
  else if _in_num self then set_in_num false self
  else if _in_st self then set_in_st false self
  else if _in_chinese_text self && (stack_depth =? _chinese_text_depth self) then
    set_in_chinese_text false self
  else if _in_def_cn self && (stack_depth =? _def_cn_depth self) then
    set_in_def_cn false self
  else if _in_orth self && (stack_depth =? _orth_depth self) then
    set_in_orth false self
  else self.

(** The [div] branch of [handle_endtag]: three independent [if]s. *)
Definition end_div (self : Parser) : Parser :=
  let self :=
    if _in_example self then
      if has_frames self && contains (str "collins_en_cn example") (top_class self) then
        let self :=
          match _current_def self with
          | Some d =>
              if truthy (en d) || truthy (cn d) then
                set_result (set_definitions (definitions (result self) ++ [d]) (result self)) self
              else self
          | None => self
          end in
        set_current_def None (set_in_example false self)
      else self
    else self in
  let self :=
    if _in_caption self && has_frames self && contains (str "caption") (top_class self) then
      set_collecting_en_def false (set_in_caption false self)
    else self in
  if _in_form_inflected self && has_frames self
     && contains (str "form_inflected") (top_class self) then
    set_in_form_inflected false self
  else self.

(** The [li] branch of [handle_endtag]. *)
Definition end_li (self : Parser) : Parser :=
  let self :=
    if _in_li self && has_def self then
      let en := strip (_current_example_en self) in
      let cn := strip (_current_example_cn self) in
      if truthy en || truthy cn then
        upd_def (fun d => set_examples (examples d ++ [{| example_en := en; example_cn := cn |}]) d)
                self
      else self
    else self in
  set_in_li_p false (set_in_li false self).

Definition handle_endtag (self : Parser) (tag : pystr) : Parser :=
  if negb (has_frames self) then self
  else
    let stack_depth := depth self in
    let self :=
      if bool_decide (tag = str "span") then end_span self stack_depth
      else if bool_decide (tag = str "div") then end_div self
      else if bool_decide (tag = str "a") then
        if _in_orth self && (stack_depth =? _orth_depth self) then set_in_orth false self
        else self
      else if bool_decide (tag = str "li") then end_li self
      else if bool_decide (tag = str "p") then set_in_li_p false self
      else self in
    if has_frames self then set_tag_stack (removelast (_tag_stack self)) self else self.

Definition handle_data (self : Parser) (data : pystr) : Parser :=
  let text := strip data in
  if negb (truthy text) then self
  else if _in_word_key self then
    set_result (set_word text (result self)) self
  else if _in_pron_uk self then
    set_current_pron_uk (_current_pron_uk self ++ data) self
  else if _in_pron_us self then
    set_current_pron_us (_current_pron_us self ++ data) self
  else if _in_orth self then
    if re_match_form text then
      set_result (set_forms (forms (result self) ++ [text]) (result self)) self
    else self
  else if _in_num self && has_def self then
    upd_def (set_num text) self
  else if _in_st self && has_def self then
    upd_def (set_pos (strip text)) self
  else if _in_def_cn self && has_def self then
    if truthy (def_field cn self) then upd_def (fun d => set_cn (cn d ++ text) d) self
    else upd_def (set_cn text) self
  else if _in_li self then
    if _li_p_count self =? 1 then
      set_current_example_en (_current_example_en self ++ data ++ str " ") self
    else if 2 <=? _li_p_count self then
      set_current_example_cn (_current_example_cn self ++ text) self
    else self
  else if _collecting_en_def self && has_def self && negb (_in_def_cn self)
          && negb (_in_num self) && negb (_in_st self) then
    upd_def (fun d => set_en (en d ++ data ++ str " ") d) self
  else self.

(** The record [get_result] returns: the pronunciation lists are joined. *)
Record Entry := {
  entry_word : pystr;
  entry_phonetic_uk : pystr;
  entry_phonetic_us : pystr;
  entry_frequency : Z;
  entry_forms : list pystr;
  entry_definitions : list SenseDef
}.

(** The de-duplication loop of [get_result], with its [seen] set. *)
Definition unique_step (acc : gset pystr * list pystr) (f : pystr) : gset pystr * list pystr :=
  if decide (f ∈ acc.1) then acc else ({[f]} ∪ acc.1, acc.2 ++ [f]).

Definition unique_forms (fs : list pystr) : list pystr :=
  (foldl unique_step (∅, []) fs).2.

(** [" / ".join(prons) if prons else ""] *)
Definition join_prons (prons : list pystr) : pystr :=
  match prons with
  | [] => []
  | _ :: _ => join (str " / ") prons
  end.

Definition get_result (self : Parser) : Entry :=
  {| entry_word := word (result self);
     entry_phonetic_uk := join_prons (phonetic_uk (result self));
     entry_phonetic_us := join_prons (phonetic_us (result self));
     entry_frequency := _frequency_count self;
     entry_forms := unique_forms (forms (result self));
     entry_definitions := definitions (result self) |}.

(** ** Events and [parse_collins_html] *)

(** The handler calls [HTMLParser.feed] makes, in document order. *)
Inductive event :=
  | Starttag (tag : pystr) (attrs : list (pystr * pystr))
  | Endtag (tag : pystr)
  | Data (data : pystr).

Definition dispatch (self : Parser) (ev : event) : Parser :=
  match ev with
  | Starttag tag attrs => handle_starttag self tag attrs
  | Endtag tag => handle_endtag self tag
  | Data data => handle_data self data
  end.

Definition run (evs : list event) (self : Parser) : Parser := foldl dispatch self evs.

(** What a call of [feed] amounts to: the events it dispatched and, when the
    tokenizer raised, the text of the exception. *)
Inductive fed :=
  | Fed (evs : list event)
  | Raised (evs : list event) (message : pystr).

(** What [parse_collins_html] returns: the entry, or the dictionary with the
    keys ["error"] and ["raw_html"]. *)
Inductive parsed :=
  | ParsedEntry (e : Entry)
  | ParseError (error raw_html : pystr).

Section Parse.

(** The tokenizer of [html.parser.HTMLParser], which is not part of the
    repository. *)
Variable feed : pystr -> fed.

Definition parse_collins_html (html : pystr) : parsed :=
  match feed html with
  | Fed evs => ParsedEntry (get_result (run evs init))
  | Raised _ message => ParseError message (firstn 500 html)
  end.

End Parse.


(** ** Definitions used in the statements *)

(** [self._tag_stack.append((tag, current_class))] *)
Definition push (self : Parser) (tag current_class : pystr) : Parser :=
  set_tag_stack (_tag_stack self ++ [(tag, current_class)]) self.

(** The first [if] chain of [handle_starttag]. *)
Definition start_first (self : Parser) (tag current_class : pystr) : Parser :=
  if bool_decide (tag = str "span") then start_span self current_class (depth self)
  else if bool_decide (tag = str "div") then start_div self current_class
  else if bool_decide (tag = str "a") then
    if _in_form_inflected self && contains (str "orth") current_class then
      set_orth_depth (depth self) (set_in_orth true self)
    else self
  else self.

(** The second [if] chain of [handle_starttag]. *)
Definition start_second (self : Parser) (tag current_class : pystr) (stack_depth : Z) : Parser :=
  if bool_decide (tag = str "span") && _in_form_inflected self
     && contains (str "orth") current_class then
    set_orth_depth stack_depth (set_in_orth true self)
  else if bool_decide (tag = str "li") then
    if _in_example self then
      set_current_example_cn []
        (set_current_example_en [] (set_li_p_count 0 (set_in_li true self)))
    else self
  else if bool_decide (tag = str "p") then
    if _in_li self then
      set_li_p_count (_li_p_count self + 1) (set_in_li_p true self)
    else self
  else self.

(** The state [handle_endtag] reaches before it pops. *)
Definition end_body (self : Parser) (tag : pystr) : Parser :=
  if bool_decide (tag = str "span") then end_span self (depth self)
  else if bool_decide (tag = str "div") then end_div self
  else if bool_decide (tag = str "a") then
    if _in_orth self && (depth self =? _orth_depth self) then set_in_orth false self
    else self
  else if bool_decide (tag = str "li") then end_li self
  else if bool_decide (tag = str "p") then set_in_li_p false self
  else self.




(** The attribute list of a tag whose only attribute is [class]. *)
Definition cls (c : string) : list (pystr * pystr) := [(str "class", str c)].




(** [<p ...>runs</p>] *)
Definition paragraph (p : list (pystr * pystr) * list pystr) : list event :=
  Starttag (str "p") p.1 :: map Data p.2 ++ [Endtag (str "p")].

(** [<li ...>] followed by paragraphs and [</li>]. *)
Definition list_item (attrs : list (pystr * pystr))
    (paragraphs : list (list (pystr * pystr) * list pystr)) : list event :=
  Starttag (str "li") attrs :: concat (map paragraph paragraphs) ++ [Endtag (str "li")].




(** ** Definitions used in the further properties *)

(** An open tag that the first chain of [handle_starttag] counts as a
    frequency star: a [span] that reaches the ["level"]/["roundRed"] test. *)
Definition is_star (ev : event) : bool :=
  match ev with
  | Starttag tag attrs =>
      let c := class_of attrs in
      bool_decide (tag = str "span")
      && negb (contains (str "word_key") c)
      && negb (contains (str "pron type_uk") c)
      && negb (contains (str "pron type_us") c)
      && negb (bool_decide (c = str "num"))
      && negb (bool_decide (c = str "st"))
      && contains (str "level") c && contains (str "roundRed") c
  | _ => false
  end.

(** Neither the first nor the last character is one that [strip] removes. *)
Definition trimmed (s : pystr) : Prop :=
  (forall c, head s = Some c -> isspace c = false) /\
  (forall c, last s = Some c -> isspace c = false).

(** What holds of an example pair once it is in a definition. *)
Definition example_ok (e : Example) : Prop :=
  trimmed (example_en e) /\ trimmed (example_cn e) /\
  (example_en e <> [] \/ example_cn e <> []).

(** What holds of a definition, open or in the result. *)
Definition def_ok (d : SenseDef) : Prop :=
  trimmed (num d) /\ trimmed (pos d) /\ trimmed (cn d) /\
  (en d = [] \/ last (en d) = Some 32%N) /\
  Forall example_ok (examples d) /\ synonyms d = [].

(** What holds of the result under construction. *)
Definition result_ok (r : Result) : Prop :=
  trimmed (word r) /\
  Forall (fun p => p <> [] /\ trimmed p) (phonetic_uk r) /\
  Forall (fun p => p <> [] /\ trimmed p) (phonetic_us r) /\
  Forall (fun f => f <> [] /\ trimmed f) (forms r) /\
  Forall def_ok (definitions r).

Definition parser_ok (self : Parser) : Prop :=
  result_ok (result self) /\ (forall d, _current_def self = Some d -> def_ok d).

(** The open tag of a word-form block. *)
Definition opens_form_block (ev : event) : Prop :=
  exists attrs, ev = Starttag (str "div") attrs /\
    contains (str "form_inflected") (class_of attrs) = true.

(** The open tag of a word form. *)
Definition opens_orth (ev : event) : Prop :=
  exists tag attrs, ev = Starttag tag attrs /\
    (tag = str "a" \/ tag = str "span") /\
    contains (str "orth") (class_of attrs) = true.



(** The tags [handle_starttag] and [handle_endtag] look at. *)
Definition known_tag (tag : pystr) : bool :=
  bool_decide (tag = str "span") || bool_decide (tag = str "div")
  || bool_decide (tag = str "a") || bool_decide (tag = str "li")
  || bool_decide (tag = str "p").

(** ** The word-root dictionary: [parse_etyma_html] *)

(** [s.split(sep)] for a separator that is not empty (the source splits on
    ["<br>"], ["<BR>"] and a newline).  [skip] counts the characters of a
    separator still to pass over; [cur] is the piece being read, last
    character first. *)
Fixpoint split_from (sep s : pystr) (skip : nat) (cur : pystr) : list pystr :=
  match s with
  | [] => [rev cur]
  | c :: s' =>
      match skip with
      | S k => split_from sep s' k cur
      | O =>
          if startswith sep s then rev cur :: split_from sep s' (length sep - 1) []
          else split_from sep s' 0 (c :: cur)
      end
  end.

Definition split (s sep : pystr) : list pystr := split_from sep s 0 [].

(** [[a-zA-Z]] *)
Definition is_letter (c : N) : bool :=
  ((97 <=? c) && (c <=? 122) || (65 <=? c) && (c <=? 90))%N.

Fixpoint takewhile (f : N -> bool) (s : pystr) : pystr :=
  match s with
  | [] => []
  | c :: s' => if f c then c :: takewhile f s' else []
  end.

(** [re.match] of the headword pattern on [line]: the group, a letter
    followed by as many letters, hyphens, apostrophes and spaces as there
    are, when the line starts with a letter. *)
Definition match_word (line : pystr) : option pystr :=
  match line with
  | c :: rest => if is_letter c then Some (c :: takewhile form_char rest) else None
  | [] => None
  end.

(** The length of the match of [<[^>]+>] at the start of [s], if there is
    one: [<], then as many characters other than [>] as there are, at least
    one, then [>]. *)
Definition tag_match (s : pystr) : option nat :=
  match s with
  | c :: rest =>
      if (c =? 60)%N then
        let body := takewhile (fun c => negb (c =? 62)%N) rest in
        match body, skipn (length body) rest with
        | _ :: _, _ :: _ => Some (length body + 2)%nat
        | _, _ => None
        end
      else None
  | [] => None
  end.

Fixpoint sub_tags_from (s : pystr) (skip : nat) : pystr :=
  match s with
  | [] => []
  | c :: s' =>
      match skip with
      | S k => sub_tags_from s' k
      | O =>
          match tag_match s with
          | Some n => sub_tags_from s' (n - 1)
          | None => c :: sub_tags_from s' 0
          end
      end
  end.

(** [re.sub(r'<[^>]+>', '', s)] *)
Definition sub_tags (s : pystr) : pystr := sub_tags_from s 0.

(** [s.count('★')] *)
Definition count_stars (s : pystr) : Z :=
  Z.of_nat (length (List.filter (fun c => (c =? 9733)%N) s)).

(** The dictionaries of the ["related"] list. *)
Record Related := { related_word : pystr; related_brief : pystr }.

(** The body of the loop over [lines[1:]]: what one line appends. *)
Definition related_of (word line0 : pystr) : list Related :=
  let line := strip line0 in
  if negb (truthy line) || startswith (str "<DIV") line
     || startswith (str "<font color=teal") line then []
  else
    match match_word line with
    | Some group =>
        let related_word := strip group in
        if truthy related_word && negb (bool_decide (related_word = word)) then
          let clean_related := sub_tags line in
          let brief := strip (skipn (length related_word) clean_related) in
          [{| related_word := related_word;
              related_brief := if (100 <? length brief)%nat then firstn 100 brief else brief |}]
        else []
    | None => []
    end.

(** The dictionary [parse_etyma_html] returns. *)
Record Etyma := {
  etyma_word : pystr;
  etyma_pos : pystr;
  etyma_meaning : pystr;
  etyma_etymology : pystr;
  etyma_frequency : Z;
  etyma_stars : Z;
  etyma_root : pystr;
  etyma_related : list Related
}.

Section Etyma.

(** The values the case-insensitive searches of [re] leave in ["pos"],
    ["meaning"], ["etymology"] and ["frequency"], as functions of the first
    line, and in ["root"], as a function of the markup.  They depend on the
    Unicode tables of the regular-expression engine and are not modelled. *)
Variable search_pos search_meaning search_etymology : pystr -> pystr.
Variable search_frequency : pystr -> Z.
Variable search_root : pystr -> pystr.

Definition parse_etyma_html (html : pystr) : Etyma :=
  let lines := split html (str "<br>") in
  let lines := match lines with [] => split html (str "<BR>") | _ :: _ => lines end in
  let first_line := match lines with first :: _ => first | [] => html end in
  let word :=
    match match_word first_line with
    | Some group => strip group
    | None => []
    end in
  {| etyma_word := word;
     etyma_pos := search_pos first_line;
     etyma_meaning := search_meaning first_line;
     etyma_etymology := search_etymology first_line;
     etyma_frequency := search_frequency first_line;
     etyma_stars := count_stars first_line;
     etyma_root := search_root html;
     etyma_related := flat_map (related_of word) (tl lines) |}.

End Etyma.

(** ** The import loops: [import_collins] and [import_etyma] *)

(** A row of [collins_words] or [etyma_words] without its [id]; a table is
    the list of its rows in the order of insertion. *)
Record Row := {
  row_word : pystr;
  row_content : pystr;
  row_is_link : Z;
  row_link_target : option pystr
}.

(** A loop whose body may raise: the first exception ends it. *)
Fixpoint for_each {A S : Type} (body : S -> A -> option S) (items : list A) (st : S)
    : option S :=
  match items with
  | [] => Some st
  | item :: rest =>
      match body st item with
      | Some st' => for_each body rest st'
      | None => None
      end
  end.

Section ImportLoops.

(** [bytes.decode('utf-8')]: [None] when it raises [UnicodeDecodeError]. *)
Variable decode : list Byte.byte -> option pystr.

Variable feed : pystr -> fed.

(** [json.dumps(parsed, ensure_ascii=False)] *)
Variable dumps_collins : parsed -> pystr.

(** The body of the loop of [import_collins]: the table, [imported] and
    [links] after one item. *)
Definition import_collins_item (st : list Row * (Z * Z))
    (item : list Byte.byte * list Byte.byte) : option (list Row * (Z * Z)) :=
  let '(table, (imported, links)) := st in
  match decode item.1 with
  | None => None
  | Some word =>
      match decode item.2 with
      | None => None
      | Some html =>
          if startswith (str "@@@LINK=") html then
            let link_target := strip (skipn 8 html) in
            Some (table ++ [{| row_word := word; row_content := str "{}"; row_is_link := 1;
                               row_link_target := Some link_target |}],
                  (imported, links + 1))
          else
            let parsed := parse_collins_html feed html in
            let content := dumps_collins parsed in
            Some (table ++ [{| row_word := word; row_content := content; row_is_link := 0;
                               row_link_target := None |}],
                  (imported + 1, links))
      end
  end.

(** [import_collins]: the table after the commit with the pair
    [(imported, links)] it returns, or [None] when an item made it raise. *)
Definition import_collins (items : list (list Byte.byte * list Byte.byte))
    (table : list Row) : option (list Row * (Z * Z)) :=
  for_each import_collins_item items (table, (0, 0)).

Variable search_pos search_meaning search_etymology : pystr -> pystr.
Variable search_frequency : pystr -> Z.
Variable search_root : pystr -> pystr.

(** [json.dumps(parsed, ensure_ascii=False)] *)
Variable dumps_etyma : Etyma -> pystr.

(** The body of the loop of [import_etyma]. *)
Definition import_etyma_item (st : list Row * (Z * Z))
    (item : list Byte.byte * list Byte.byte) : option (list Row * (Z * Z)) :=
  let '(table, (imported, links)) := st in
  match decode item.1 with
  | None => None
  | Some word =>
      match decode item.2 with
      | None => None
      | Some html =>
          if startswith (str "00") word then Some st
          else if startswith (str "@@@LINK=") html then
            let link_target := strip (skipn 8 html) in
            Some (table ++ [{| row_word := word; row_content := str "{}"; row_is_link := 1;
                               row_link_target := Some link_target |}],
                  (imported, links + 1))
          else
            let parsed :=
              parse_etyma_html search_pos search_meaning search_etymology search_frequency
                search_root html in
            let content := dumps_etyma parsed in
            Some (table ++ [{| row_word := word; row_content := content; row_is_link := 0;
                               row_link_target := None |}],
                  (imported + 1, links))
      end
  end.

Definition import_etyma (items : list (list Byte.byte * list Byte.byte))
    (table : list Row) : option (list Row * (Z * Z)) :=
  for_each import_etyma_item items (table, (0, 0)).

End ImportLoops.

(** The row [import_collins] stores for an item. *)
Definition collins_row (decode : list Byte.byte -> option pystr) (feed : pystr -> fed)
    (dumps_collins : parsed -> pystr)
    (item : list Byte.byte * list Byte.byte) (row : Row) : Prop :=
  exists word html,
    decode item.1 = Some word /\ decode item.2 = Some html /\ row_word row = word /\
    if startswith (str "@@@LINK=") html
    then row_content row = str "{}" /\ row_is_link row = 1 /\
         row_link_target row = Some (strip (skipn 8 html))
    else row_content row = dumps_collins (parse_collins_html feed html) /\
         row_is_link row = 0 /\ row_link_target row = None.


(** The items [import_etyma] stores: those whose word does not start with
    ["00"]. *)
Definition etyma_kept (decode : list Byte.byte -> option pystr)
    (item : list Byte.byte * list Byte.byte) : bool :=
  match decode item.1 with
  | Some word => negb (startswith (str "00") word)
  | None => false
  end.

(** A decoder to try the import on: one character for each byte. *)
Definition decode_latin1 (bs : list Byte.byte) : option pystr :=
  Some (map (fun b => N.of_nat (Byte.to_nat b)) bs).

(** ** The GPT-4 abstract: [extract_gpt4_def] (generate_abstracts.py) *)

(** The loop over the lines: the first line that, stripped, is not empty,
    is not a heading and has at least 10 characters, cut at 100. *)
Fixpoint first_content_line (lines : list pystr) : pystr :=
  match lines with
  | [] => []
  | line0 :: rest =>
      let line := strip line0 in
      if negb (truthy line) || startswith (str "#") line then first_content_line rest
      else if (length line <? 10)%nat then first_content_line rest
      else firstn 100 line ++ (if (100 <? length line)%nat then str "..." else [])
  end.

Definition extract_gpt4_def (content_str : pystr) : pystr :=
  first_content_line (split content_str [10%N]).

(** A line the loop of [extract_gpt4_def] passes over. *)
Definition skipped_line (line0 : pystr) : bool :=
  negb (truthy (strip line0)) || startswith (str "#") (strip line0)
  || (length (strip line0) <? 10)%nat.

(** * Properties *)

(** ** Strings *)

Lemma lstrip_all_space s : forallb isspace s = true -> lstrip s = [].
Proof.
  induction s as [|c s IH]; simpl; [done|].
  intros [Hc Hs]%andb_prop. rewrite Hc. auto.
Qed.

Lemma strip_all_space s : forallb isspace s = true -> strip s = [].
Proof. intros H. unfold strip. by rewrite lstrip_all_space. Qed.

Lemma lstrip_head s c : head (lstrip s) = Some c -> isspace c = false.
Proof.
  induction s as [|a s IH]; simpl; [done|].
  destruct (isspace a) eqn:Ha; [done|].
  simpl. intros [= <-]. done.
Qed.

Lemma last_rev_head (l : pystr) : last (rev l) = head l.
Proof. destruct l as [|a l]; simpl; [done|]. apply last_snoc. Qed.

Lemma rstrip_last s c : last (rstrip s) = Some c -> isspace c = false.
Proof. unfold rstrip. rewrite last_rev_head. apply lstrip_head. Qed.

Lemma strip_last s c : last (strip s) = Some c -> isspace c = false.
Proof. apply rstrip_last. Qed.

Lemma lstrip_app_nonspace s t :
  lstrip s <> [] -> lstrip (s ++ t) = lstrip s ++ t.
Proof.
  induction s as [|a s IH]; simpl; [done|].
  destruct (isspace a); [done|]. done.
Qed.



Lemma truthy_true s : truthy s = true <-> s <> [].
Proof. by destruct s. Qed.

Lemma truthy_false s : truthy s = false <-> s = [].
Proof. by destruct s. Qed.


(** ** The shape of the handlers *)

Ltac split_ifs :=
  repeat match goal with
         | |- context [if ?b then _ else _] => destruct b eqn:?
         end.

Lemma handle_starttag_unfold self tag attrs :
  handle_starttag self tag attrs =
  let s0 := push self tag (class_of attrs) in
  start_second (start_first s0 tag (class_of attrs)) tag (class_of attrs) (depth s0).
Proof. reflexivity. Qed.

Lemma start_span_stack self c d : _tag_stack (start_span self c d) = _tag_stack self.
Proof. unfold start_span. split_ifs; reflexivity. Qed.

Lemma start_div_stack self c : _tag_stack (start_div self c) = _tag_stack self.
Proof. unfold start_div. split_ifs; reflexivity. Qed.

Lemma start_first_stack self tag c : _tag_stack (start_first self tag c) = _tag_stack self.
Proof.
  unfold start_first. split_ifs; auto using start_span_stack, start_div_stack.
Qed.

Lemma start_second_stack self tag c d : _tag_stack (start_second self tag c d) = _tag_stack self.
Proof. unfold start_second. split_ifs; reflexivity. Qed.

Lemma handle_starttag_stack self tag attrs :
  _tag_stack (handle_starttag self tag attrs) = _tag_stack self ++ [(tag, class_of attrs)].
Proof.
  rewrite handle_starttag_unfold. simpl.
  by rewrite start_second_stack, start_first_stack.
Qed.

Lemma handle_starttag_depth self tag attrs :
  depth (handle_starttag self tag attrs) = depth self + 1.
Proof. unfold depth. rewrite handle_starttag_stack, length_app. simpl. lia. Qed.

Lemma push_depth self tag c : depth (push self tag c) = depth self + 1.
Proof. unfold depth, push. simpl. rewrite length_app. simpl. lia. Qed.

Lemma start_first_depth self tag c : depth (start_first self tag c) = depth self.
Proof. unfold depth. by rewrite start_first_stack. Qed.

Lemma start_first_result self tag c : result (start_first self tag c) = result self.
Proof. unfold start_first, start_span, start_div. split_ifs; reflexivity. Qed.

Lemma start_second_result self tag c d : result (start_second self tag c d) = result self.
Proof. unfold start_second. split_ifs; reflexivity. Qed.

Lemma handle_starttag_result self tag attrs :
  result (handle_starttag self tag attrs) = result self.
Proof.
  rewrite handle_starttag_unfold. simpl.
  by rewrite start_second_result, start_first_result.
Qed.

Lemma end_span_stack self d : _tag_stack (end_span self d) = _tag_stack self.
Proof. unfold end_span. split_ifs; reflexivity. Qed.

Lemma end_div_stack self : _tag_stack (end_div self) = _tag_stack self.
Proof.
  unfold end_div. split_ifs; try reflexivity; destruct (_current_def self); split_ifs; reflexivity.
Qed.

Lemma end_li_stack self : _tag_stack (end_li self) = _tag_stack self.
Proof. unfold end_li, upd_def. split_ifs; reflexivity. Qed.

Lemma has_frames_stack self self' :
  _tag_stack self' = _tag_stack self -> has_frames self' = has_frames self.
Proof. unfold has_frames. by intros ->. Qed.

Lemma has_frames_true self : has_frames self = true <-> _tag_stack self <> [].
Proof. unfold has_frames. by destruct (_tag_stack self). Qed.

Lemma end_body_stack self tag : _tag_stack (end_body self tag) = _tag_stack self.
Proof.
  unfold end_body. split_ifs; auto using end_span_stack, end_div_stack, end_li_stack.
Qed.

Lemma handle_endtag_unfold self tag :
  handle_endtag self tag =
  if has_frames self
  then set_tag_stack (removelast (_tag_stack self)) (end_body self tag)
  else self.
Proof.
  unfold handle_endtag. fold (end_body self tag).
  destruct (has_frames self) eqn:Hf; simpl; [|done].
  by rewrite (has_frames_stack _ _ (end_body_stack self tag)), Hf, end_body_stack.
Qed.


Lemma handle_data_blank self data : strip data = [] -> handle_data self data = self.
Proof. intros H. unfold handle_data. by rewrite H. Qed.

(** [handle_data] writes the result, the two pronunciation buffers, the
    current definition and the two example buffers, and nothing else. *)
Lemma handle_data_writes self data :
  exists r pu ps cd ee ec,
    handle_data self data =
    set_result r (set_current_pron_uk pu (set_current_pron_us ps
      (set_current_def cd (set_current_example_en ee (set_current_example_cn ec self))))).
Proof.
  exists (result (handle_data self data)), (_current_pron_uk (handle_data self data)),
    (_current_pron_us (handle_data self data)), (_current_def (handle_data self data)),
    (_current_example_en (handle_data self data)), (_current_example_cn (handle_data self data)).
  unfold handle_data, upd_def, has_def, def_field.
  split_ifs; destruct self; reflexivity.
Qed.

(** [handle_endtag] never writes a depth, the star count, the headword or
    the word forms. *)
Lemma end_body_keeps self tag :
  let self' := end_body self tag in
  _pron_uk_depth self' = _pron_uk_depth self /\
  _pron_us_depth self' = _pron_us_depth self /\
  _chinese_text_depth self' = _chinese_text_depth self /\
  _def_cn_depth self' = _def_cn_depth self /\
  _orth_depth self' = _orth_depth self /\
  _frequency_count self' = _frequency_count self /\
  word (result self') = word (result self) /\
  forms (result self') = forms (result self).
Proof.
  unfold end_body, end_span, end_div, end_li, upd_def, has_def. simpl.
  destruct (_current_def self); split_ifs; simpl; repeat split; reflexivity.
Qed.

(** ** Depth-bound flags *)











Lemma run_app evs1 evs2 self : run (evs1 ++ evs2) self = run evs2 (run evs1 self).
Proof. apply foldl_app. Qed.





(** ** The scope stack *)




(** ** Pronunciation scopes *)

Lemma span_is_span : bool_decide (str "span" = str "span") = true.
Proof. reflexivity. Qed.



(** What the open tag of a UK pronunciation scope sets. *)
Lemma start_uk self attrs :
  contains (str "word_key") (class_of attrs) = false ->
  contains (str "pron type_uk") (class_of attrs) = true ->
  let s1 := handle_starttag self (str "span") attrs in
  _in_pron_uk s1 = true /\ _pron_uk_depth s1 = depth s1 /\ _current_pron_uk s1 = [] /\
  _in_word_key s1 = _in_word_key self /\ result s1 = result self /\
  _tag_stack s1 = _tag_stack self ++ [(str "span", class_of attrs)].
Proof.
  intros Hwk Huk s1.
  assert (depth s1 = depth self + 1) as Hd by apply handle_starttag_depth.
  pose proof (handle_starttag_stack self (str "span") attrs) as Hs.
  pose proof (push_depth self (str "span") (class_of attrs)) as Hp.
  revert Hd Hs. unfold s1. rewrite handle_starttag_unfold. simpl.
  unfold start_first, start_second, start_span.
  rewrite span_is_span, Hwk, Huk. simpl.
  split_ifs; simpl; intros Hd Hs; repeat split; try done; congruence.
Qed.

(** What the open tag of a US pronunciation scope sets. *)
Lemma start_us self attrs :
  contains (str "word_key") (class_of attrs) = false ->
  contains (str "pron type_uk") (class_of attrs) = false ->
  contains (str "pron type_us") (class_of attrs) = true ->
  let s1 := handle_starttag self (str "span") attrs in
  _in_pron_us s1 = true /\ _pron_us_depth s1 = depth s1 /\ _current_pron_us s1 = [] /\
  _in_word_key s1 = _in_word_key self /\ _in_pron_uk s1 = _in_pron_uk self /\
  result s1 = result self /\
  _tag_stack s1 = _tag_stack self ++ [(str "span", class_of attrs)].
Proof.
  intros Hwk Huk Hus s1.
  assert (depth s1 = depth self + 1) as Hd by apply handle_starttag_depth.
  pose proof (handle_starttag_stack self (str "span") attrs) as Hs.
  pose proof (push_depth self (str "span") (class_of attrs)) as Hp.
  revert Hd Hs. unfold s1. rewrite handle_starttag_unfold. simpl.
  unfold start_first, start_second, start_span.
  rewrite span_is_span, Hwk, Huk, Hus. simpl.
  split_ifs; simpl; intros Hd Hs; repeat split; try done; congruence.
Qed.



Lemma run_data_blank ds self :
  Forall (fun d => forallb isspace d = true) ds -> run (map Data ds) self = self.
Proof.
  induction 1 as [|d ds Hd _ IH]; simpl; [done|].
  by rewrite handle_data_blank by (by apply strip_all_space).
Qed.

Lemma has_frames_snoc self l x : _tag_stack self = l ++ [x] -> has_frames self = true.
Proof. intros H. apply has_frames_true. rewrite H. by destruct l. Qed.





Lemma handle_data_phonetic self data :
  phonetic_uk (result (handle_data self data)) = phonetic_uk (result self) /\
  phonetic_us (result (handle_data self data)) = phonetic_us (result self).
Proof. unfold handle_data, upd_def. split_ifs; by simpl. Qed.

(** A close tag appends at most one item to each pronunciation list and
    leaves the items already there as they are. *)
Lemma handle_endtag_phonetic self tag :
  (exists l, phonetic_uk (result (handle_endtag self tag)) = phonetic_uk (result self) ++ l) /\
  (exists l, phonetic_us (result (handle_endtag self tag)) = phonetic_us (result self) ++ l).
Proof.
  rewrite handle_endtag_unfold. destruct (has_frames self); simpl.
  2: { split; exists []; by rewrite app_nil_r. }
  unfold end_body, end_span, end_div, end_li, upd_def, has_def.
  destruct (_current_def self); split_ifs; simpl;
    (split; [first [by exists []; rewrite app_nil_r | by eexists]
            |first [by exists []; rewrite app_nil_r | by eexists]]).
Qed.

Lemma dispatch_phonetic self ev :
  (exists l, phonetic_uk (result (dispatch self ev)) = phonetic_uk (result self) ++ l) /\
  (exists l, phonetic_us (result (dispatch self ev)) = phonetic_us (result self) ++ l).
Proof.
  destruct ev as [tag attrs|tag|data]; simpl.
  - rewrite handle_starttag_result. split; exists []; by rewrite app_nil_r.
  - apply handle_endtag_phonetic.
  - destruct (handle_data_phonetic self data) as [-> ->].
    split; exists []; by rewrite app_nil_r.
Qed.

Lemma class_of_cls c : class_of (cls c) = str c.
Proof. unfold class_of, cls, dict. simpl. by rewrite lookup_insert_eq. Qed.






(** A UK scope whose text runs are all blank. *)
Lemma uk_scope_blank self attrs ds :
  contains (str "word_key") (class_of attrs) = false ->
  contains (str "pron type_uk") (class_of attrs) = true ->
  Forall (fun d => forallb isspace d = true) ds ->
  result (run (Starttag (str "span") attrs :: map Data ds ++ [Endtag (str "span")]) self)
  = result self.
Proof.
  intros Hwk Huk Hds. simpl. rewrite run_app, run_data_blank by done. simpl.
  destruct (start_uk self attrs Hwk Huk) as (H1 & H2 & H3 & H4 & H5 & H6).
  set (s1 := handle_starttag self (str "span") attrs) in *.
  rewrite handle_endtag_unfold.
  rewrite (has_frames_snoc s1 _ _ H6). simpl.
  unfold end_body, end_span. rewrite span_is_span, H1, H2, Z.eqb_refl, H3. simpl.
  exact H5.
Qed.

(** A US scope whose text runs are all blank. *)
Lemma us_scope_blank self attrs ds :
  contains (str "word_key") (class_of attrs) = false ->
  contains (str "pron type_uk") (class_of attrs) = false ->
  contains (str "pron type_us") (class_of attrs) = true ->
  Forall (fun d => forallb isspace d = true) ds ->
  let s' := run (Starttag (str "span") attrs :: map Data ds ++ [Endtag (str "span")]) self in
  phonetic_us (result s') = phonetic_us (result self) /\
  (_in_pron_uk self = false -> result s' = result self).
Proof.
  intros Hwk Huk Hus Hds. simpl. rewrite run_app, run_data_blank by done. simpl.
  destruct (start_us self attrs Hwk Huk Hus) as (H1 & H2 & H3 & H4 & H4' & H5 & H6).
  set (s1 := handle_starttag self (str "span") attrs) in *.
  rewrite handle_endtag_unfold.
  rewrite (has_frames_snoc s1 _ _ H6). simpl.
  unfold end_body, end_span. rewrite span_is_span.
  destruct (_in_pron_uk s1 && (depth s1 =? _pron_uk_depth s1)) eqn:E.
  - split.
    + destruct (truthy (strip (_current_pron_uk s1))); simpl; by rewrite H5.
    + intros Hu. rewrite H4', Hu in E. done.
  - rewrite H1, H2, Z.eqb_refl, H3. simpl. by rewrite H5.
Qed.

(** C10.  A text run made of whitespace only leaves the whole parser state
    as it was.  Runs that are not blank are added to the pronunciation
    buffer as they are, untrimmed.  A UK scope with blank runs only leaves
    the result untouched; a US scope with blank runs only appends no US
    pronunciation, and leaves the result untouched when no UK accumulation
    is pending. *)
Theorem blank_text_run_is_discarded :
  (forall self data, forallb isspace data = true -> handle_data self data = self) /\
  (forall self data,
     strip data <> [] -> _in_word_key self = false -> _in_pron_uk self = true ->
     handle_data self data = set_current_pron_uk (_current_pron_uk self ++ data) self) /\
  (forall self data,
     strip data <> [] -> _in_word_key self = false -> _in_pron_uk self = false ->
     _in_pron_us self = true ->
     handle_data self data = set_current_pron_us (_current_pron_us self ++ data) self) /\
  (forall self attrs ds,
     contains (str "word_key") (class_of attrs) = false ->
     contains (str "pron type_uk") (class_of attrs) = true ->
     Forall (fun d => forallb isspace d = true) ds ->
     result (run (Starttag (str "span") attrs :: map Data ds ++ [Endtag (str "span")]) self)
     = result self) /\
  (forall self attrs ds,
     contains (str "word_key") (class_of attrs) = false ->
     contains (str "pron type_uk") (class_of attrs) = false ->
     contains (str "pron type_us") (class_of attrs) = true ->
     Forall (fun d => forallb isspace d = true) ds ->
     let s' := run (Starttag (str "span") attrs :: map Data ds ++ [Endtag (str "span")]) self in
     phonetic_us (result s') = phonetic_us (result self) /\
     (_in_pron_uk self = false -> result s' = result self)).
Proof.
  split; [|split; [|split; [|split]]].
  - intros self data H. by apply handle_data_blank, strip_all_space.
  - intros self data Ht Hk Hu. unfold handle_data.
    apply truthy_true in Ht. by rewrite Ht, Hk, Hu.
  - intros self data Ht Hk Hu Hs. unfold handle_data.
    apply truthy_true in Ht. by rewrite Ht, Hk, Hu, Hs.
  - apply uk_scope_blank.
  - apply us_scope_blank.
Qed.

Lemma blank_text_run_is_discarded_witness :
  let s := handle_starttag init (str "span") (cls "pron type_uk") in
  handle_data s (str "  ") = s /\
  handle_data s (str " a ") = set_current_pron_uk (_current_pron_uk s ++ str " a ") s /\
  result (run (Starttag (str "span") (cls "pron type_uk")
                 :: map Data [str " "; [10%N; 9%N]] ++ [Endtag (str "span")]) init)
  = result init.
Proof.
  split; [|split].
  - apply (proj1 blank_text_run_is_discarded). reflexivity.
  - apply (proj1 (proj2 blank_text_run_is_discarded)); [vm_compute; discriminate|reflexivity..].
  - apply (proj1 (proj2 (proj2 (proj2 blank_text_run_is_discarded)))); [reflexivity..|].
    repeat constructor.
Defined.

(** ** Classification of an opened frame *)

Ltac flag_facts :=
  repeat match goal with
         | E : _ && _ = true |- _ => apply andb_prop in E; destruct E
         | E : bool_decide _ = true |- _ => apply bool_decide_eq_true_1 in E
         end.

(** An open tag that sets one of these flags is a [span] whose class passes
    the test of the flag's branch. *)
Lemma start_first_activation self tag c :
  let s' := start_first self tag c in
  (_in_pron_uk self = false -> _in_pron_uk s' = true ->
     tag = str "span" /\ contains (str "word_key") c = false /\
     contains (str "pron type_uk") c = true) /\
  (_in_pron_us self = false -> _in_pron_us s' = true ->
     tag = str "span" /\ contains (str "word_key") c = false /\
     contains (str "pron type_uk") c = false /\ contains (str "pron type_us") c = true) /\
  (_in_num self = false -> _in_num s' = true -> tag = str "span" /\ c = str "num") /\
  (_in_st self = false -> _in_st s' = true -> tag = str "span" /\ c = str "st") /\
  (_in_def_cn self = false -> _in_def_cn s' = true ->
     tag = str "span" /\ contains (str "def_cn") c = true /\
     contains (str "cn_before") c = true).
Proof.
  unfold start_first, start_span, start_div.
  split_ifs; simpl; repeat split; intros; flag_facts; congruence.
Qed.

Lemma start_second_keeps self tag c d :
  let s' := start_second self tag c d in
  _in_pron_uk s' = _in_pron_uk self /\ _in_pron_us s' = _in_pron_us self /\
  _in_num s' = _in_num self /\ _in_st s' = _in_st self /\
  _in_def_cn s' = _in_def_cn self /\ _in_word_key s' = _in_word_key self /\
  _current_def s' = _current_def self /\ _in_example s' = _in_example self.
Proof. unfold start_second. split_ifs; simpl; repeat split; congruence. Qed.

Lemma handle_starttag_activation self tag attrs :
  let s' := handle_starttag self tag attrs in
  let c := class_of attrs in
  (_in_pron_uk self = false -> _in_pron_uk s' = true ->
     tag = str "span" /\ contains (str "word_key") c = false /\
     contains (str "pron type_uk") c = true) /\
  (_in_pron_us self = false -> _in_pron_us s' = true ->
     tag = str "span" /\ contains (str "word_key") c = false /\
     contains (str "pron type_uk") c = false /\ contains (str "pron type_us") c = true) /\
  (_in_num self = false -> _in_num s' = true -> tag = str "span" /\ c = str "num") /\
  (_in_st self = false -> _in_st s' = true -> tag = str "span" /\ c = str "st") /\
  (_in_def_cn self = false -> _in_def_cn s' = true ->
     tag = str "span" /\ contains (str "def_cn") c = true /\
     contains (str "cn_before") c = true).
Proof.
  rewrite handle_starttag_unfold. simpl.
  set (s0 := push self tag (class_of attrs)).
  destruct (start_second_keeps (start_first s0 tag (class_of attrs)) tag (class_of attrs)
              (depth s0)) as (-> & -> & -> & -> & -> & _).
  apply (start_first_activation s0).
Qed.

(** What the open tag of a [span] of class exactly ["num"] or ["st"] sets. *)
Lemma start_num_st self :
  _in_num (handle_starttag self (str "span") (cls "num")) = true /\
  _in_st (handle_starttag self (str "span") (cls "st")) = true.
Proof.
  rewrite !handle_starttag_unfold, !class_of_cls. simpl.
  unfold start_second, start_first.
  change (bool_decide (str "span" = str "span")) with true. cbv iota.
  change (contains (str "orth") (str "num")) with false.
  change (contains (str "orth") (str "st")) with false.
  rewrite !andb_false_r.
  change (bool_decide (str "span" = str "li")) with false.
  change (bool_decide (str "span" = str "p")) with false. cbv iota.
  split; reflexivity.
Qed.

(** A [span] of class exactly ["pron"] is pushed and nothing more. *)
Lemma start_pron_alone self :
  handle_starttag self (str "span") (cls "pron") = push self (str "span") (str "pron").
Proof.
  rewrite handle_starttag_unfold, class_of_cls. simpl.
  unfold start_second, start_first.
  change (bool_decide (str "span" = str "span")) with true. cbv iota.
  change (contains (str "orth") (str "pron")) with false.
  rewrite !andb_false_r.
  change (bool_decide (str "span" = str "li")) with false.
  change (bool_decide (str "span" = str "p")) with false. cbv iota.
  reflexivity.
Qed.

(** C9 (as amended).  A [span] whose class holds the substring
    ["pron type_uk"] (resp. ["pron type_us"]) and passes no earlier test of
    the chain is bound to UK (resp. US) accumulation, and that is the only
    way these flags get set; a [span] of class ["pron"] is pushed and sets
    nothing; sense-number and part-of-speech capture are set by a [span]
    whose class is exactly ["num"], exactly ["st"], and by nothing else. *)
Theorem classification_by_class_substring (self : Parser) :
  (forall attrs,
     contains (str "word_key") (class_of attrs) = false ->
     contains (str "pron type_uk") (class_of attrs) = true ->
     let s' := handle_starttag self (str "span") attrs in
     _in_pron_uk s' = true /\ _pron_uk_depth s' = depth s' /\ _current_pron_uk s' = []) /\
  (forall attrs,
     contains (str "word_key") (class_of attrs) = false ->
     contains (str "pron type_uk") (class_of attrs) = false ->
     contains (str "pron type_us") (class_of attrs) = true ->
     let s' := handle_starttag self (str "span") attrs in
     _in_pron_us s' = true /\ _pron_us_depth s' = depth s' /\ _current_pron_us s' = []) /\
  (forall tag attrs,
     _in_pron_uk self = false -> _in_pron_uk (handle_starttag self tag attrs) = true ->
     tag = str "span" /\ contains (str "pron type_uk") (class_of attrs) = true) /\
  (forall tag attrs,
     _in_pron_us self = false -> _in_pron_us (handle_starttag self tag attrs) = true ->
     tag = str "span" /\ contains (str "pron type_us") (class_of attrs) = true) /\
  handle_starttag self (str "span") (cls "pron") = push self (str "span") (str "pron") /\
  _in_num (handle_starttag self (str "span") (cls "num")) = true /\
  _in_st (handle_starttag self (str "span") (cls "st")) = true /\
  (forall tag attrs,
     _in_num self = false -> _in_num (handle_starttag self tag attrs) = true ->
     tag = str "span" /\ class_of attrs = str "num") /\
  (forall tag attrs,
     _in_st self = false -> _in_st (handle_starttag self tag attrs) = true ->
     tag = str "span" /\ class_of attrs = str "st").
Proof.
  repeat apply conj.
  - intros attrs Hwk Huk.
    destruct (start_uk self attrs Hwk Huk) as (H1 & H2 & H3 & _). done.
  - intros attrs Hwk Huk Hus.
    destruct (start_us self attrs Hwk Huk Hus) as (H1 & H2 & H3 & _). done.
  - intros tag attrs H0 H1.
    destruct (handle_starttag_activation self tag attrs) as (A & _).
    destruct (A H0 H1) as (? & ? & ?). done.
  - intros tag attrs H0 H1.
    destruct (handle_starttag_activation self tag attrs) as (_ & A & _).
    destruct (A H0 H1) as (? & ? & ? & ?). done.
  - apply start_pron_alone.
  - apply start_num_st.
  - apply start_num_st.
  - intros tag attrs H0 H1.
    destruct (handle_starttag_activation self tag attrs) as (_ & _ & A & _). auto.
  - intros tag attrs H0 H1.
    destruct (handle_starttag_activation self tag attrs) as (_ & _ & _ & A & _). auto.
Qed.

Lemma classification_by_class_substring_witness :
  _in_pron_uk (handle_starttag init (str "span") (cls "hd pron type_uk")) = true /\
  _in_pron_us (handle_starttag init (str "span") (cls "pron type_us")) = true /\
  str "span" = str "span" /\ class_of (cls "num") = str "num".
Proof.
  split; [|split].
  - apply (proj1 (classification_by_class_substring init) (cls "hd pron type_uk"));
      reflexivity.
  - apply (proj1 (proj2 (classification_by_class_substring init)) (cls "pron type_us"));
      reflexivity.
  - apply (proj1 (proj2 (proj2 (proj2 (proj2 (proj2 (proj2 (proj2
             (classification_by_class_substring init))))))))
             (str "span") (cls "num")); reflexivity.
Defined.

(** C9 (as stated) fails: the class ["type_uk pron"] contains ["pron"]
    together with ["type_uk"], and a [span] carrying it sets nothing; its text
    is not collected as a UK pronunciation. *)
Lemma pron_with_type_uk_elsewhere_activates_nothing :
  contains (str "pron") (str "type_uk pron") = true /\
  contains (str "type_uk") (str "type_uk pron") = true /\
  handle_starttag init (str "span") (cls "type_uk pron")
  = push init (str "span") (str "type_uk pron") /\
  _in_pron_uk (handle_starttag init (str "span") (cls "type_uk pron")) = false /\
  entry_phonetic_uk
    (get_result (run [Starttag (str "span") (cls "type_uk pron"); Data (str "abc");
                      Endtag (str "span")] init)) = [].
Proof. vm_compute. repeat split. Qed.

(** ** The Chinese gloss *)







(** ** Word forms *)

Lemma re_match_form_strip data :
  re_match_form (strip data) = true ->
  strip data <> [] /\ forallb form_char (strip data) = true.
Proof.
  unfold re_match_form. intros [H|H]%orb_prop.
  - apply andb_prop in H as [H1 H2]. by apply truthy_true in H1.
  - destruct (last (strip data)) as [c|] eqn:E; [|done].
    apply strip_last in E.
    destruct c as [|p]; [done|].
    repeat (destruct p as [p|p|]; try done).
Qed.

(** A text run either leaves the word forms alone or appends its trimmed
    text, which then matches the pattern. *)
Lemma handle_data_forms self data :
  forms (result (handle_data self data)) = forms (result self) \/
  (forms (result (handle_data self data)) = forms (result self) ++ [strip data] /\
   _in_orth self = true /\ strip data <> [] /\ forallb form_char (strip data) = true).
Proof.
  unfold handle_data, upd_def.
  split_ifs; simpl; auto.
  right. split; [done|]. split; [done|]. by apply re_match_form_strip.
Qed.

Lemma handle_endtag_forms self tag :
  forms (result (handle_endtag self tag)) = forms (result self).
Proof.
  rewrite handle_endtag_unfold. destruct (has_frames self); [|done].
  change (forms (result (end_body self tag)) = forms (result self)).
  by destruct (end_body_keeps self tag) as (_ & _ & _ & _ & _ & _ & _ & ->).
Qed.

Lemma run_forms evs self :
  Forall (fun f => f <> [] /\ forallb form_char f = true) (forms (result self)) ->
  Forall (fun f => f <> [] /\ forallb form_char f = true) (forms (result (run evs self))).
Proof.
  revert self. induction evs as [|[tag attrs|tag|data] evs IH]; intros self H; simpl;
    [done|apply IH..].
  - by rewrite handle_starttag_result.
  - by rewrite handle_endtag_forms.
  - destruct (handle_data_forms self data) as [->|(-> & _ & ? & ?)]; [done|].
    apply Forall_app. split; [done|]. by apply Forall_singleton.
Qed.

(** The [seen] set and the output list of the de-duplication loop hold the
    forms met so far, each once. *)
Lemma unique_loop_spec (l : list pystr) :
  let st := foldl unique_step (∅, []) l in
  (forall x, x ∈ st.1 <-> x ∈ l) /\ (forall x, x ∈ st.2 <-> x ∈ l) /\ NoDup st.2.
Proof.
  induction l as [|y l IH] using rev_ind; simpl.
  - split; [|split]; [set_solver..|constructor].
  - rewrite foldl_app. simpl. destruct IH as (H1 & H2 & H3).
    set (st := foldl unique_step (∅, []) l) in *.
    unfold unique_step. case_decide as Hy; simpl.
    + split; [|split]; [| |done]; intros x; rewrite elem_of_app, list_elem_of_singleton.
      * rewrite H1. split; [by left|]. intros [?| ->]; [done|]. by apply H1.
      * rewrite H2. split; [by left|]. intros [?| ->]; [done|]. by apply H1.
    + split; [|split].
      * intros x. rewrite elem_of_union, elem_of_singleton, H1, elem_of_app,
          list_elem_of_singleton. tauto.
      * intros x. rewrite !elem_of_app, list_elem_of_singleton, H2. tauto.
      * apply NoDup_app. split; [done|]. split; [|apply NoDup_singleton].
        intros x Hx ->%list_elem_of_singleton. apply Hy, H1, H2, Hx.
Qed.

Lemma unique_forms_snoc (l : list pystr) (x : pystr) :
  unique_forms (l ++ [x]) = unique_forms l ++ (if bool_decide (x ∈ l) then [] else [x]).
Proof.
  unfold unique_forms. rewrite foldl_app. simpl.
  destruct (unique_loop_spec l) as (H1 & _).
  unfold unique_step at 1. case_decide as Hx; case_bool_decide as Hx'; simpl.
  - by rewrite app_nil_r.
  - by apply H1 in Hx.
  - by apply H1 in Hx'.
  - done.
Qed.

(** C6.  A text run is appended to the forms only as its trimmed text and
    only if that text is a non-empty string of letters [a-z], [A-Z],
    hyphens, apostrophes and spaces, so every collected form is such a
    string.  [get_result] keeps the first occurrence of each form in the order
    of collection: a form is kept when no equal form came before it, and
    dropped otherwise. *)
Theorem forms_pattern_and_first_seen_dedup :
  (forall self data,
     forms (result (handle_data self data)) <> forms (result self) ->
     forms (result (handle_data self data)) = forms (result self) ++ [strip data] /\
     strip data <> [] /\ forallb form_char (strip data) = true) /\
  (forall evs,
     Forall (fun f => f <> [] /\ forallb form_char f = true) (forms (result (run evs init)))) /\
  (forall self, entry_forms (get_result self) = unique_forms (forms (result self))) /\
  unique_forms [] = [] /\
  (forall l x,
     unique_forms (l ++ [x]) = unique_forms l ++ (if bool_decide (x ∈ l) then [] else [x])) /\
  (forall l, NoDup (unique_forms l) /\ forall x, x ∈ unique_forms l <-> x ∈ l) /\
  unique_forms [str "runs"; str "running"; str "runs"] = [str "runs"; str "running"].
Proof.
  repeat apply conj.
  - intros self data H. by destruct (handle_data_forms self data) as [?|(? & _ & ? & ?)].
  - intros evs. apply run_forms. constructor.
  - done.
  - done.
  - apply unique_forms_snoc.
  - intros l. destruct (unique_loop_spec l) as (_ & H2 & H3). split; [exact H3|exact H2].
  - by vm_compute.
Qed.

Lemma forms_pattern_and_first_seen_dedup_witness :
  let self := run [Starttag (str "div") (cls "form_inflected");
                   Starttag (str "span") (cls "orth")] init in
  forms (result (handle_data self (str " runs "))) = forms (result self) ++ [str "runs"] /\
  str "runs" <> [] /\ forallb form_char (str "runs") = true.
Proof.
  apply (proj1 forms_pattern_and_first_seen_dedup
           (run [Starttag (str "div") (cls "form_inflected");
                 Starttag (str "span") (cls "orth")] init) (str " runs ")).
  vm_compute. discriminate.
Defined.

(** ** Sense definitions *)





Lemma handle_data_definitions self data :
  definitions (result (handle_data self data)) = definitions (result self).
Proof. unfold handle_data, upd_def. split_ifs; by simpl. Qed.

(** A close tag either leaves the definitions alone or appends the current
    definition, whose English or Chinese gloss is then not empty. *)
Lemma handle_endtag_definitions self tag :
  definitions (result (handle_endtag self tag)) = definitions (result self) \/
  exists d, _current_def self = Some d /\ (en d <> [] \/ cn d <> []) /\
    definitions (result (handle_endtag self tag)) = definitions (result self) ++ [d].
Proof.
  rewrite handle_endtag_unfold. destruct (has_frames self); [|by left].
  unfold end_body, end_span, end_div, end_li, upd_def, has_def.
  destruct (_current_def self) as [d|] eqn:E; split_ifs; simpl; auto.
  all: right; exists d; split; [done|]; split; [|done].
  all: match goal with
       | H : truthy (en _) || truthy (cn _) = true |- _ =>
           apply orb_prop in H as [H|H]; apply truthy_true in H; auto
       end.
Qed.




(** ** Example items *)
















(** ** [parse_collins_html] *)

(** C4.  Whatever the tokenizer does on the markup, [parse_collins_html]
    returns: the entry when [feed] came back, and, when [feed] raised, the
    dictionary holding the text of the exception and the first 500
    characters of the markup, a prefix of it of at most 500 characters. *)
Theorem parse_collins_html_returns_entry_or_error
    (feed : pystr -> fed) (html : pystr) :
  ((exists e, parse_collins_html feed html = ParsedEntry e) \/
   (exists message raw,
      parse_collins_html feed html = ParseError message raw /\
      (length raw <= 500)%nat /\ raw `prefix_of` html)) /\
  (forall evs message,
     feed html = Raised evs message ->
     parse_collins_html feed html = ParseError message (firstn 500 html) /\
     (length (firstn 500 html) <= 500)%nat /\
     (length html <= 500 -> firstn 500 html = html)%nat) /\
  (forall evs,
     feed html = Fed evs ->
     parse_collins_html feed html = ParsedEntry (get_result (run evs init))).
Proof.
  unfold parse_collins_html. split; [|split].
  - destruct (feed html) as [evs|evs message]; [left; by eexists|].
    right. exists message, (firstn 500 html). split; [done|]. split.
    + apply firstn_le_length.
    + exists (skipn 500 html). symmetry. apply firstn_skipn.
  - intros evs message ->. split; [done|]. split.
    + apply firstn_le_length.
    + apply firstn_all2.
  - by intros evs ->.
Qed.

Lemma parse_collins_html_returns_entry_or_error_witness :
  parse_collins_html (fun _ => Raised [] (str "bad markup")) (repeat 60%N 501)
  = ParseError (str "bad markup") (repeat 60%N 500) /\
  parse_collins_html (fun html => Fed [Data html]) (str "text")
  = ParsedEntry (get_result init).
Proof.
  split.
  - apply (proj1 (proj1 (proj2 (parse_collins_html_returns_entry_or_error
             (fun _ => Raised [] (str "bad markup")) (repeat 60%N 501)))
             [] (str "bad markup") eq_refl)).
  - apply (proj2 (proj2 (parse_collins_html_returns_entry_or_error
             (fun html => Fed [Data html]) (str "text")))
             [Data (str "text")] eq_refl).
Defined.

(** ** Worked entries *)

(** [<span class="word_key">abandon</span><span class="pron type_us"> əˈbændən </span>] *)
Example header_entry :
  get_result (run [Starttag (str "span") (cls "word_key"); Data (str "abandon");
                   Endtag (str "span");
                   Starttag (str "span") (cls "pron type_us");
                   Data ([32; 601; 712; 98; 230; 110; 100; 601; 110; 32])%N;
                   Endtag (str "span")] init)
  = {| entry_word := str "abandon";
       entry_phonetic_uk := [];
       entry_phonetic_us := [601; 712; 98; 230; 110; 100; 601; 110]%N;
       entry_frequency := 0;
       entry_forms := [];
       entry_definitions := [] |}.
Proof. reflexivity. Qed.

(** A definition block with a caption and the item
    [<li><p>I will abandon this.</p><p>我将放弃这个。</p></li>]: one
    definition with one example.  The same block without the caption has no
    gloss and is dropped together with its example. *)
Example example_entry :
  let zh := [25105; 23558; 25918; 24323; 36825; 20010; 12290]%N in
  let item := list_item [] [([], [str "I will abandon this."]); ([], [zh])] in
  let caption := [Starttag (str "div") (cls "caption hide_cn"); Data (str "To leave.");
                  Endtag (str "div")] in
  let block body := [Starttag (str "div") (cls "collins_en_cn example")] ++ body
                    ++ [Endtag (str "div")] in
  entry_definitions (get_result (run (block (caption ++ item)) init))
  = [{| num := []; pos := []; cn := []; en := str "To leave. ";
        examples := [{| example_en := str "I will abandon this."; example_cn := zh |}];
        synonyms := [] |}] /\
  entry_definitions (get_result (run (block item) init)) = [].
Proof. split; reflexivity. Qed.

(** * Further properties of the entry parser *)

(** ** The star count *)

Lemma dispatch_frequency self ev :
  _frequency_count (dispatch self ev)
  = _frequency_count self + (if is_star ev then 1 else 0).
Proof.
  destruct ev as [tag attrs|tag|data]; simpl.
  - rewrite handle_starttag_unfold. cbv zeta.
    set (c := class_of attrs). set (s0 := push self tag c).
    assert (_frequency_count (start_second (start_first s0 tag c) tag c (depth s0))
            = _frequency_count (start_first s0 tag c)) as ->.
    { unfold start_second. split_ifs; reflexivity. }
    unfold start_first, start_span, start_div.
    destruct (bool_decide (tag = str "span")); simpl.
    + destruct (contains (str "word_key") c); simpl; [lia|].
      destruct (contains (str "pron type_uk") c); simpl; [lia|].
      destruct (contains (str "pron type_us") c); simpl; [lia|].
      destruct (bool_decide (c = str "num")); simpl; [lia|].
      destruct (bool_decide (c = str "st")); simpl; [lia|].
      destruct (contains (str "level") c), (contains (str "roundRed") c); simpl;
        split_ifs; simpl; lia.
    + split_ifs; simpl; lia.
  - rewrite handle_endtag_unfold. destruct (has_frames self); [|lia].
    destruct (end_body_keeps self tag) as (_ & _ & _ & _ & _ & H & _).
    change (_frequency_count (end_body self tag) = _frequency_count self + 0).
    lia.
  - destruct (handle_data_writes self data) as (r & pu & ps & cd & ee & ec & ->).
    simpl. lia.
Qed.

Lemma run_frequency evs self :
  _frequency_count (run evs self)
  = _frequency_count self + Z.of_nat (length (List.filter is_star evs)).
Proof.
  revert self. induction evs as [|ev evs IH]; intros self; simpl; [lia|].
  rewrite IH, dispatch_frequency. destruct (is_star ev); simpl; lia.
Qed.

(** X1.  The frequency of the entry is the number of open tags counted as
    stars, wherever they are nested; close tags and text never change it. *)
Theorem frequency_counts_star_spans (evs : list event) :
  entry_frequency (get_result (run evs init))
  = Z.of_nat (length (List.filter is_star evs)).
Proof. unfold get_result. simpl. by rewrite run_frequency. Qed.

(** ** Collected strings are trimmed *)

Lemma trimmed_nil : trimmed [].
Proof. split; intros c [=]. Qed.

Lemma rstrip_cons_nonspace c s : isspace c = false -> rstrip (c :: s) = c :: rstrip s.
Proof.
  intros Hc. unfold rstrip. simpl.
  destruct (lstrip (rev s)) as [|a l] eqn:E.
  - assert (lstrip (rev s ++ [c]) = [c]) as ->; [|done].
    revert E. generalize (rev s). intros r. induction r as [|b r IH]; simpl.
    + by rewrite Hc.
    + destruct (isspace b); [auto|done].
  - rewrite lstrip_app_nonspace by (by rewrite E). rewrite E.
    rewrite rev_app_distr. done.
Qed.

Lemma strip_trimmed s : trimmed (strip s).
Proof.
  split; [|apply strip_last].
  unfold strip. destruct (lstrip s) as [|a l] eqn:E; [intros c [=]|].
  assert (isspace a = false) as Ha by (apply (lstrip_head s); by rewrite E).
  rewrite rstrip_cons_nonspace by done. simpl. by intros c [= <-].
Qed.

Lemma trimmed_strip s : trimmed s -> strip s = s.
Proof.
  intros [Hh Hl]. unfold strip.
  assert (forall t : pystr, (forall c, head t = Some c -> isspace c = false) -> lstrip t = t)
    as Hls.
  { intros [|a t] H; [done|]. simpl. by rewrite (H a eq_refl). }
  rewrite (Hls s Hh). unfold rstrip. rewrite Hls.
  - apply rev_involutive.
  - intros c Hc. apply Hl. rewrite <- (rev_involutive s). by rewrite last_rev_head.
Qed.

Lemma trimmed_app a b : trimmed a -> trimmed b -> b <> [] -> trimmed (a ++ b).
Proof.
  intros [Ha1 Ha2] [Hb1 Hb2] Hb. split; intros c.
  - destruct a as [|x a]; simpl; [apply Hb1|]. intros [= <-]. by apply Ha1.
  - destruct b as [|y b] using rev_ind; [done|].
    rewrite app_assoc, last_snoc. intros [= <-]. apply Hb2. by rewrite last_snoc.
Qed.

Lemma def_ok_new : def_ok new_def.
Proof.
  unfold def_ok, new_def. simpl. repeat split; try (by intros c [=]); auto.
Qed.

Lemma start_first_current_def self tag c :
  let s' := start_first self tag c in
  (_current_def s' = _current_def self /\ _in_example s' = _in_example self) \/
  (_current_def s' = Some new_def /\ _in_example s' = true).
Proof. unfold start_first, start_span, start_div. split_ifs; simpl; auto. Qed.

Lemma handle_starttag_current_def self tag attrs :
  let s' := handle_starttag self tag attrs in
  (_current_def s' = _current_def self /\ _in_example s' = _in_example self) \/
  (_current_def s' = Some new_def /\ _in_example s' = true).
Proof.
  rewrite handle_starttag_unfold. cbv zeta.
  set (s0 := push self tag (class_of attrs)).
  destruct (start_second_keeps (start_first s0 tag (class_of attrs)) tag (class_of attrs)
              (depth s0)) as (_ & _ & _ & _ & _ & _ & -> & ->).
  apply (start_first_current_def s0).
Qed.

Lemma handle_starttag_ok self tag attrs :
  parser_ok self -> parser_ok (handle_starttag self tag attrs).
Proof.
  intros [Hr Hd]. split; [by rewrite handle_starttag_result|].
  intros d. destruct (handle_starttag_current_def self tag attrs) as [[-> _]|[-> _]].
  - apply Hd.
  - intros [= <-]. apply def_ok_new.
Qed.

Lemma nonblank_strip data : truthy (strip data) = true -> strip data <> [] /\ trimmed (strip data).
Proof. intros H. split; [by apply truthy_true|apply strip_trimmed]. Qed.

Lemma handle_data_ok self data :
  parser_ok self -> parser_ok (handle_data self data).
Proof.
  intros H. pose proof H as [(Hw & Huk & Hus & Hf & Hds) Hd].
  unfold handle_data, upd_def, has_def, def_field.
  destruct (truthy (strip data)) eqn:Ht; simpl; [|exact H].
  apply nonblank_strip in Ht as [Hne Htr].
  assert (forall l : list pystr,
            Forall (fun f => f <> [] /\ trimmed f) l ->
            Forall (fun f => f <> [] /\ trimmed f) (l ++ [strip data])) as Hsnoc.
  { intros l Hl. apply Forall_app. split; [done|]. by apply Forall_singleton. }
  destruct (_current_def self) as [d|] eqn:E; simpl.
  - destruct (Hd d eq_refl) as (D1 & D2 & D3 & D4 & D5 & D6).
    split_ifs; simpl; rewrite ?E; try exact H.
    all: unfold parser_ok, result_ok; simpl; rewrite ?E; split_and!; auto.
    all: intros d' [= <-]; unfold def_ok; simpl; split_and!; auto using strip_trimmed.
    + by apply trimmed_app.
    + right. change (str " ") with [32%N]. by rewrite !app_assoc, last_snoc.
  - split_ifs; simpl; rewrite ?E; try exact H.
    all: unfold parser_ok, result_ok; simpl; rewrite ?E; split_and!; auto.
Qed.

Lemma handle_endtag_ok self tag :
  parser_ok self -> parser_ok (handle_endtag self tag).
Proof.
  intros H. pose proof H as [(Hw & Huk & Hus & Hf & Hds) Hd].
  rewrite handle_endtag_unfold. destruct (has_frames self); [|exact H].
  assert (forall (l : list pystr) b,
            Forall (fun f => f <> [] /\ trimmed f) l -> truthy (strip b) = true ->
            Forall (fun f => f <> [] /\ trimmed f) (l ++ [strip b])) as Hsnoc.
  { intros l b Hl Hb. apply Forall_app. split; [done|].
    apply Forall_singleton. by apply nonblank_strip. }
  unfold end_body, end_span, end_div, end_li, upd_def, has_def.
  destruct (_current_def self) as [d|] eqn:E; simpl.
  - destruct (Hd d eq_refl) as (D1 & D2 & D3 & D4 & D5 & D6).
    split_ifs; simpl; rewrite ?E.
    all: unfold parser_ok, result_ok; simpl; rewrite ?E; split_and!; auto.
    all: try (apply Forall_app; split; [done|]; apply Forall_singleton; apply (Hd d eq_refl)).
    all: try done.
    all: intros d' [= <-]; unfold def_ok; simpl; split_and!; auto.
    all: apply Forall_app; split; [done|]; apply Forall_singleton;
      unfold example_ok; simpl; split_and!; auto using strip_trimmed.
    all: match goal with
         | H : truthy _ || truthy _ = true |- _ =>
             apply orb_prop in H as [H|H]; apply truthy_true in H; auto
         end.
  - split_ifs; simpl; rewrite ?E.
    all: unfold parser_ok, result_ok; simpl; rewrite ?E; split_and!; auto.
Qed.

Lemma run_ok evs self : parser_ok self -> parser_ok (run evs self).
Proof.
  revert self. induction evs as [|[tag attrs|tag|data] evs IH]; intros self H; simpl;
    [done|apply IH..].
  - by apply handle_starttag_ok.
  - by apply handle_endtag_ok.
  - by apply handle_data_ok.
Qed.

Lemma init_ok : parser_ok init.
Proof.
  split; [|intros d [=]].
  unfold result_ok. simpl. split_and!; try constructor; by intros c [=].
Qed.

Lemma trimmed_iff s : trimmed s <-> strip s = s.
Proof. split; [apply trimmed_strip|]. intros <-. apply strip_trimmed. Qed.

(** X2.  Whatever the events, the headword, every pronunciation and every
    word form of the entry are left unchanged by [strip]; the
    pronunciations and the forms are not empty. *)
Theorem entry_header_strings_are_trimmed (evs : list event) :
  let r := result (run evs init) in
  strip (entry_word (get_result (run evs init))) = entry_word (get_result (run evs init)) /\
  Forall (fun p => p <> [] /\ strip p = p) (phonetic_uk r) /\
  Forall (fun p => p <> [] /\ strip p = p) (phonetic_us r) /\
  Forall (fun f => f <> [] /\ strip f = f) (entry_forms (get_result (run evs init))).
Proof.
  destruct (run_ok evs init init_ok) as [(Hw & Huk & Hus & Hf & _) _].
  cbv zeta. split_and!.
  - by apply trimmed_strip.
  - eapply Forall_impl; [exact Huk|]. intros p [? ?]. split; [done|by apply trimmed_strip].
  - eapply Forall_impl; [exact Hus|]. intros p [? ?]. split; [done|by apply trimmed_strip].
  - unfold get_result. simpl. apply Forall_forall. intros f Hin.
    apply (proj2 (unique_loop_spec (forms (result (run evs init))))) in Hin.
    rewrite Forall_forall in Hf. destruct (Hf f Hin) as [? ?].
    split; [done|by apply trimmed_strip].
Qed.

(** X3.  Every definition of the entry has a sense number, a part of speech
    and a Chinese gloss that [strip] leaves unchanged; its English gloss is
    empty or ends with the space appended after each run; each of its
    examples has two trimmed sentences, one of them not empty; and its
    synonym list is empty. *)
Theorem entry_definitions_are_well_formed (evs : list event) :
  Forall (fun d =>
            strip (num d) = num d /\ strip (pos d) = pos d /\ strip (cn d) = cn d /\
            (en d = [] \/ last (en d) = Some 32%N) /\
            Forall (fun e => strip (example_en e) = example_en e /\
                             strip (example_cn e) = example_cn e /\
                             (example_en e <> [] \/ example_cn e <> [])) (examples d) /\
            synonyms d = [])
         (entry_definitions (get_result (run evs init))).
Proof.
  destruct (run_ok evs init init_ok) as [(_ & _ & _ & _ & Hds) _].
  unfold get_result. simpl. eapply Forall_impl; [exact Hds|].
  intros d (D1 & D2 & D3 & D4 & D5 & D6). split_and!; auto using trimmed_strip.
  eapply Forall_impl; [exact D5|]. intros e (E1 & E2 & E3).
  split_and!; auto using trimmed_strip.
Qed.

(** ** The open definition *)

Lemma dispatch_example_def self ev :
  _in_example self = has_def self ->
  _in_example (dispatch self ev) = has_def (dispatch self ev).
Proof.
  intros H. destruct ev as [tag attrs|tag|data]; simpl.
  - unfold has_def in *.
    destruct (handle_starttag_current_def self tag attrs) as [[-> ->]|[-> ->]]; done.
  - rewrite handle_endtag_unfold. destruct (has_frames self); [|done].
    revert H. unfold end_body, end_span, end_div, end_li, upd_def, has_def. simpl.
    destruct (_current_def self) eqn:E; intros H; split_ifs; simpl in *; rewrite ?E in *;
      simpl in *; congruence.
  - revert H. unfold handle_data, upd_def, has_def, def_field.
    destruct (_current_def self) eqn:E; intros H; split_ifs; simpl in *; rewrite ?E in *;
      simpl in *; congruence.
Qed.

(** X4.  In every state the parser reaches, a definition is open exactly
    when the example-block flag is set. *)
Theorem definition_open_iff_in_example (evs : list event) :
  _in_example (run evs init) = has_def (run evs init).
Proof.
  assert (forall self, _in_example self = has_def self ->
                       _in_example (run evs self) = has_def (run evs self)) as H.
  { induction evs as [|ev evs IH]; intros self H; simpl; [done|].
    by apply IH, dispatch_example_def. }
  by apply H.
Qed.

(** ** The result only grows *)

Lemma dispatch_grows self ev :
  phonetic_uk (result self) `prefix_of` phonetic_uk (result (dispatch self ev)) /\
  phonetic_us (result self) `prefix_of` phonetic_us (result (dispatch self ev)) /\
  forms (result self) `prefix_of` forms (result (dispatch self ev)) /\
  definitions (result self) `prefix_of` definitions (result (dispatch self ev)).
Proof.
  destruct (dispatch_phonetic self ev) as [[l1 ->] [l2 ->]].
  split_and!; [by exists l1|by exists l2|..];
    destruct ev as [tag attrs|tag|data]; simpl.
  - by rewrite handle_starttag_result.
  - by rewrite handle_endtag_forms.
  - destruct (handle_data_forms self data) as [->|(-> & _)]; [done|by eexists].
  - by rewrite handle_starttag_result.
  - destruct (handle_endtag_definitions self tag) as [->|(d & _ & _ & ->)]; [done|by eexists].
  - by rewrite handle_data_definitions.
Qed.

(** X5.  Later events never remove, reorder or rewrite what is already in
    the result: each of the two pronunciation lists, the forms and the
    definitions after any further events extend what they were before. *)
Theorem result_lists_only_grow (evs : list event) (self : Parser) :
  phonetic_uk (result self) `prefix_of` phonetic_uk (result (run evs self)) /\
  phonetic_us (result self) `prefix_of` phonetic_us (result (run evs self)) /\
  forms (result self) `prefix_of` forms (result (run evs self)) /\
  definitions (result self) `prefix_of` definitions (result (run evs self)).
Proof.
  revert self. induction evs as [|ev evs IH]; intros self; simpl; [done|].
  destruct (dispatch_grows self ev) as (A1 & A2 & A3 & A4).
  destruct (IH (dispatch self ev)) as (B1 & B2 & B3 & B4).
  split_and!; etrans; eauto.
Qed.

(** ** Where word forms come from *)

Lemma handle_starttag_orth self tag attrs :
  let s' := handle_starttag self tag attrs in
  (_in_orth self = false -> _in_orth s' = true ->
     (tag = str "a" \/ tag = str "span") /\
     contains (str "orth") (class_of attrs) = true /\ _in_form_inflected self = true) /\
  (_in_form_inflected self = false -> _in_form_inflected s' = true ->
     tag = str "div" /\ contains (str "form_inflected") (class_of attrs) = true).
Proof.
  rewrite handle_starttag_unfold. cbv zeta.
  unfold start_second, start_first, start_span, start_div, push.
  split_ifs; simpl in *; split; intros; flag_facts; simpl in *; try congruence; auto.
Qed.

Lemma handle_endtag_orth self tag :
  (_in_orth (handle_endtag self tag) = true -> _in_orth self = true) /\
  (_in_form_inflected (handle_endtag self tag) = true -> _in_form_inflected self = true).
Proof.
  rewrite handle_endtag_unfold. destruct (has_frames self); [|done].
  unfold end_body, end_span, end_div, end_li, upd_def, has_def.
  destruct (_current_def self); split_ifs; simpl; split; congruence.
Qed.

Lemma handle_data_orth self data :
  _in_orth (handle_data self data) = _in_orth self /\
  _in_form_inflected (handle_data self data) = _in_form_inflected self.
Proof. by destruct (handle_data_writes self data) as (r & pu & ps & cd & ee & ec & ->). Qed.

Lemma run_form_block evs self :
  _in_form_inflected (run evs self) = true ->
  _in_form_inflected self = true \/ Exists opens_form_block evs.
Proof.
  revert self. induction evs as [|ev evs IH]; intros self H; simpl in *; [by left|].
  destruct (IH _ H) as [H1|H1]; [|right; by apply Exists_cons_tl].
  destruct (_in_form_inflected self) eqn:E; [by left|]. right. apply Exists_cons_hd.
  destruct ev as [tag attrs|tag|data]; simpl in H1.
  - destruct (proj2 (handle_starttag_orth self tag attrs) E H1) as [-> ?]. by exists attrs.
  - apply handle_endtag_orth in H1. congruence.
  - destruct (handle_data_orth self data) as [_ F]. congruence.
Qed.

Lemma run_orth evs self :
  _in_orth (run evs self) = true ->
  _in_orth self = true \/
  exists pre ev post, evs = pre ++ ev :: post /\ opens_orth ev /\
    _in_form_inflected (run pre self) = true.
Proof.
  revert self. induction evs as [|ev evs IH]; intros self H; simpl in *; [by left|].
  destruct (IH _ H) as [H1|(pre & e & post & -> & He & Hp)].
  - destruct (_in_orth self) eqn:E; [by left|]. right.
    exists [], ev, evs. split; [done|].
    destruct ev as [tag attrs|tag|data]; simpl in H1.
    + destruct (proj1 (handle_starttag_orth self tag attrs) E H1) as (? & ? & ?).
      split; [by exists tag, attrs|done].
    + apply handle_endtag_orth in H1. congruence.
    + destruct (handle_data_orth self data) as [F _]. congruence.
  - right. exists (ev :: pre), e, post. by split.
Qed.

Lemma run_forms_change evs self :
  forms (result (run evs self)) <> forms (result self) ->
  exists pre post, evs = pre ++ post /\ _in_orth (run pre self) = true.
Proof.
  revert self. induction evs as [|ev evs IH]; intros self H; simpl in *; [done|].
  destruct (decide (forms (result (dispatch self ev)) = forms (result self))) as [E|E].
  - rewrite <- E in H. destruct (IH _ H) as (pre & post & -> & Hp).
    by exists (ev :: pre), post.
  - exists [], (ev :: evs). split; [done|]. simpl.
    destruct ev as [tag attrs|tag|data]; simpl in E.
    + by rewrite handle_starttag_result in E.
    + by rewrite handle_endtag_forms in E.
    + by destruct (handle_data_forms self data) as [?|(_ & ? & _)].
Qed.

(** X6.  If the entry has a word form, then the events hold the open tag
    of an [a] or a [span] whose class contains ["orth"], and before it the
    open tag of a [div] whose class contains ["form_inflected"]. *)
Theorem forms_need_orth_in_form_block (evs : list event) :
  entry_forms (get_result (run evs init)) <> [] ->
  exists pre ev post,
    evs = pre ++ ev :: post /\ opens_orth ev /\ Exists opens_form_block pre.
Proof.
  intros H.
  assert (forms (result (run evs init)) <> forms (result init)) as Hf.
  { intros E. apply H. unfold get_result. simpl. by rewrite E. }
  destruct (run_forms_change evs init Hf) as (pre & post & -> & Ho).
  destruct (run_orth pre init Ho) as [?|(p1 & ev & p2 & -> & He & Hb)]; [done|].
  exists p1, ev, (p2 ++ post). split; [by rewrite <- app_assoc|]. split; [done|].
  destruct (run_form_block p1 init Hb) as [?|?]; done.
Qed.

Lemma forms_need_orth_in_form_block_witness :
  exists pre ev post,
    [Starttag (str "div") (cls "form_inflected"); Starttag (str "a") (cls "orth");
     Data (str "runs")] = pre ++ ev :: post /\
    opens_orth ev /\ Exists opens_form_block pre.
Proof.
  apply (forms_need_orth_in_form_block
           [Starttag (str "div") (cls "form_inflected"); Starttag (str "a") (cls "orth");
            Data (str "runs")]).
  vm_compute. discriminate.
Defined.

(** ** The headword *)

Lemma set_result_id self : set_result (result self) self = self.
Proof. by destruct self. Qed.





(** ** The English gloss *)







(** ** De-duplication *)

Lemma unique_forms_nodup (l : list pystr) : NoDup l -> unique_forms l = l.
Proof.
  induction l as [|x l IH] using rev_ind; [done|].
  intros [Hl [Hx _]]%NoDup_app. rewrite unique_forms_snoc, IH by done.
  case_bool_decide as E; [|done].
  exfalso. apply (Hx x E). by apply list_elem_of_singleton.
Qed.

(** X9.  The de-duplicated forms are a subsequence of the collected forms,
    no longer than them, and de-duplicating twice changes nothing more. *)
Theorem unique_forms_subsequence_idempotent (l : list pystr) :
  unique_forms l `sublist_of` l /\
  (length (unique_forms l) <= length l)%nat /\
  unique_forms (unique_forms l) = unique_forms l.
Proof.
  assert (unique_forms l `sublist_of` l) as Hsub.
  { induction l as [|x l IH] using rev_ind; [done|].
    rewrite unique_forms_snoc. case_bool_decide.
    - rewrite app_nil_r. by apply sublist_inserts_r.
    - by apply sublist_app. }
  split; [done|]. split; [by apply sublist_length|].
  apply unique_forms_nodup. apply (unique_loop_spec l).
Qed.

(** ** Other tags *)

Lemma set_tag_stack_id self : set_tag_stack (_tag_stack self) self = self.
Proof. by destruct self. Qed.

(** X10.  An element whose tag is none of [span], [div], [a], [li], [p]
    only pushes its frame when it opens and only pops the top frame when it
    closes; opened and closed at once, it leaves the parser as it was. *)
Theorem other_tags_only_push_and_pop (self : Parser) (tag tag' : pystr)
    (attrs : list (pystr * pystr)) :
  known_tag tag = false -> known_tag tag' = false ->
  handle_starttag self tag attrs = push self tag (class_of attrs) /\
  handle_endtag self tag'
  = (if has_frames self then set_tag_stack (removelast (_tag_stack self)) self else self) /\
  run [Starttag tag attrs; Endtag tag'] self = self.
Proof.
  unfold known_tag. intros H H'.
  repeat (apply orb_false_elim in H as [H ?]).
  repeat (apply orb_false_elim in H' as [H' ?]).
  assert (handle_starttag self tag attrs = push self tag (class_of attrs)) as E1.
  { rewrite handle_starttag_unfold. cbv zeta. unfold start_second, start_first.
    repeat match goal with E : bool_decide _ = false |- _ => rewrite E; clear E end.
    reflexivity. }
  assert (forall s, handle_endtag s tag'
            = (if has_frames s then set_tag_stack (removelast (_tag_stack s)) s else s)) as E2.
  { intros s. rewrite handle_endtag_unfold. unfold end_body.
    repeat match goal with E : bool_decide _ = false |- _ => rewrite E; clear E end.
    reflexivity. }
  split; [done|]. split; [apply E2|].
  simpl. rewrite E1, E2. unfold push, has_frames. simpl.
  destruct (_tag_stack self ++ [(tag, class_of attrs)]) eqn:E; [by destruct (_tag_stack self)|].
  rewrite <- E, removelast_last.
  change (set_tag_stack (_tag_stack self) self = self). apply set_tag_stack_id.
Qed.

Lemma other_tags_only_push_and_pop_witness :
  run [Starttag (str "b") (cls "word_key"); Endtag (str "i")] init = init.
Proof.
  apply (proj2 (proj2 (other_tags_only_push_and_pop init (str "b") (str "i") (cls "word_key")
                         eq_refl eq_refl))).
Defined.

(** * The word-root dictionary *)

Example split_br :
  split (str "abandon<br>abandoned adj<br>") (str "<br>")
  = [str "abandon"; str "abandoned adj"; []].
Proof. reflexivity. Qed.

Example sub_tags_font :
  sub_tags (str "ban<font color=orange> v </font>forbid <> a<b") = str "ban v forbid <> a<b".
Proof. reflexivity. Qed.

Example related_line :
  related_of (str "abandon") (str " abandoned <font color=orange>adj</font> left alone ")
  = [{| related_word := str "abandoned"; related_brief := str "adj left alone" |}].
Proof. reflexivity. Qed.

Lemma takewhile_forallb f s : forallb f (takewhile f s) = true.
Proof.
  induction s as [|c s IH]; simpl; [done|].
  destruct (f c) eqn:E; simpl; [by rewrite E|done].
Qed.

Lemma takewhile_prefix f s : takewhile f s `prefix_of` s.
Proof.
  induction s as [|c s IH]; simpl; [done|].
  destruct (f c); [by apply prefix_cons|apply prefix_nil].
Qed.

Lemma lstrip_suffix s : lstrip s `suffix_of` s.
Proof.
  induction s as [|c s IH]; simpl; [done|].
  destruct (isspace c); [by apply suffix_cons_r|done].
Qed.

Lemma rstrip_prefix s : rstrip s `prefix_of` s.
Proof.
  unfold rstrip. destruct (lstrip_suffix (rev s)) as [k Hk].
  exists (rev k). rewrite <- rev_app_distr, <- Hk. symmetry. apply rev_involutive.
Qed.

Lemma forallb_prefix (f : N -> bool) (p s : pystr) :
  p `prefix_of` s -> forallb f s = true -> forallb f p = true.
Proof. intros [k ->]. rewrite forallb_app. by intros [? ?]%andb_prop. Qed.

Lemma is_letter_nonspace c : is_letter c = true -> isspace c = false.
Proof.
  unfold is_letter, isspace.
  rewrite !orb_true_iff, !andb_true_iff, !N.leb_le. intros H.
  rewrite !orb_false_iff, !andb_false_iff, !N.leb_gt, !N.eqb_neq. lia.
Qed.

Lemma is_letter_form_char c : is_letter c = true -> form_char c = true.
Proof.
  unfold is_letter, form_char.
  rewrite !orb_true_iff, !andb_true_iff, !N.leb_le, !N.eqb_eq. lia.
Qed.

(** What [match_word] followed by [strip] yields. *)
Lemma match_word_strip line group :
  match_word line = Some group ->
  (exists c rest, strip group = c :: rest /\ is_letter c = true) /\
  forallb form_char (strip group) = true /\
  strip group `prefix_of` line.
Proof.
  destruct line as [|c rest]; [done|]. simpl.
  destruct (is_letter c) eqn:Hc; [|done]. intros [= <-].
  pose proof (is_letter_nonspace c Hc) as Hs.
  assert (strip (c :: takewhile form_char rest) = c :: rstrip (takewhile form_char rest)) as ->.
  { unfold strip. simpl. rewrite Hs. by apply rstrip_cons_nonspace. }
  split; [by eexists _, _|]. split.
  - simpl. rewrite (is_letter_form_char c Hc). simpl.
    apply (forallb_prefix _ _ (takewhile form_char rest)); [apply rstrip_prefix|].
    apply takewhile_forallb.
  - apply prefix_cons. etrans; [apply rstrip_prefix|apply takewhile_prefix].
Qed.

Lemma split_from_hd sep s cur :
  exists p rest, split_from sep s 0 cur = (rev cur ++ p) :: rest /\ p `prefix_of` s.
Proof.
  revert cur. induction s as [|c s IH]; intros cur; simpl.
  - exists [], []. by rewrite app_nil_r.
  - destruct (startswith sep (c :: s)).
    + eexists [], _. rewrite app_nil_r. split; [done|apply prefix_nil].
    + destruct (IH (c :: cur)) as (p & rest & -> & Hp).
      exists (c :: p), rest. simpl. rewrite <- app_assoc. split; [done|by apply prefix_cons].
Qed.

Lemma split_hd s sep :
  exists first rest, split s sep = first :: rest /\ first `prefix_of` s.
Proof. destruct (split_from_hd sep s []) as (p & rest & H & Hp). by exists p, rest. Qed.

Lemma split_from_no_sep sep s cur :
  contains sep s = false -> split_from sep s 0 cur = [rev cur ++ s].
Proof.
  revert cur. induction s as [|c s IH]; intros cur; simpl.
  - intros _. by rewrite app_nil_r.
  - intros [H1 H2]%orb_false_elim. rewrite H1, IH by done.
    simpl. by rewrite <- app_assoc.
Qed.

Section EtymaProperties.

Variable search_pos search_meaning search_etymology : pystr -> pystr.
Variable search_frequency : pystr -> Z.
Variable search_root : pystr -> pystr.

Local Abbreviation parse :=
  (parse_etyma_html search_pos search_meaning search_etymology search_frequency search_root).

Lemma parse_etyma_lines html :
  exists first rest,
    split html (str "<br>") = first :: rest /\ first `prefix_of` html /\
    etyma_word (parse html)
    = match match_word first with Some group => strip group | None => [] end /\
    etyma_stars (parse html) = count_stars first /\
    etyma_related (parse html) = flat_map (related_of (etyma_word (parse html))) rest.
Proof.
  destruct (split_hd html (str "<br>")) as (first & rest & H & Hp).
  exists first, rest. unfold parse_etyma_html. rewrite H. simpl. done.
Qed.

(** X11.  The headword of a word-root entry is empty or starts with an
    ASCII letter; it holds only letters, hyphens, apostrophes and spaces,
    does not end with a space, and is a prefix of the markup. *)
Theorem etyma_word_is_leading_word (html : pystr) :
  let w := etyma_word (parse html) in
  (w = [] \/ exists c rest, w = c :: rest /\ is_letter c = true) /\
  forallb form_char w = true /\
  strip w = w /\
  w `prefix_of` html.
Proof.
  destruct (parse_etyma_lines html) as (first & rest & _ & Hp & -> & _). cbv zeta.
  destruct (match_word first) as [group|] eqn:E.
  - destruct (match_word_strip first group E) as (H1 & H2 & H3).
    split; [by right|]. split; [done|]. split.
    + apply trimmed_strip, strip_trimmed.
    + by etrans.
  - split; [by left|]. split; [done|]. split; [done|apply prefix_nil].
Qed.

Lemma related_of_spec word line :
  Forall (fun r => related_word r <> word /\ related_word r <> [] /\
                   forallb form_char (related_word r) = true /\
                   (length (related_brief r) <= 100)%nat)
         (related_of word line) /\
  (length (related_of word line) <= 1)%nat.
Proof.
  unfold related_of. set (l := strip line).
  destruct (negb (truthy l) || startswith (str "<DIV") l
            || startswith (str "<font color=teal") l);
    [split; [constructor|simpl; lia]|].
  destruct (match_word l) as [group|] eqn:E; [|split; [constructor|simpl; lia]].
  destruct (match_word_strip _ _ E) as ((c & rest & Hg & _) & H2 & _).
  destruct (truthy (strip group) && negb (bool_decide (strip group = word))) eqn:E2;
    [|split; [constructor|simpl; lia]].
  apply andb_prop in E2 as [_ E2]. apply negb_true_iff, bool_decide_eq_false_1 in E2.
  split; [|simpl; lia]. apply Forall_singleton. simpl.
  split_and!; [done|by rewrite Hg|done|].
  destruct (100 <? _)%nat eqn:E3.
  - rewrite length_firstn. lia.
  - by apply Nat.ltb_ge in E3.
Qed.

(** X12.  Every related word of a word-root entry differs from the
    headword, is not empty, holds only letters, hyphens, apostrophes and
    spaces, and has a brief of at most 100 characters; there is at most one
    related word for each ["<br>"] of the markup. *)
Theorem etyma_related_words_are_bounded (html : pystr) :
  Forall (fun r => related_word r <> etyma_word (parse html) /\ related_word r <> [] /\
                   forallb form_char (related_word r) = true /\
                   (length (related_brief r) <= 100)%nat)
         (etyma_related (parse html)) /\
  (length (etyma_related (parse html)) <= length (split html (str "<br>")) - 1)%nat.
Proof.
  destruct (parse_etyma_lines html) as (first & rest & Hs & _ & _ & _ & Hr).
  rewrite Hr, Hs. set (w := etyma_word (parse html)). clearbody w.
  replace (length (first :: rest) - 1)%nat with (length rest) by (simpl; lia).
  clear Hs Hr. induction rest as [|line rest [IH1 IH2]]; cbn [flat_map length].
  - split; [apply Forall_nil_2|lia].
  - destruct (related_of_spec w line) as [H1 H2].
    split; [by apply Forall_app|]. rewrite length_app. lia.
Qed.

(** X13.  The lines of a word-root entry are always those cut at the
    lower-case ["<br>"]: the split is never empty, so the upper-case
    separator is never tried, and markup without ["<br>"] is one line with
    no related words, whatever else it holds. *)
Theorem etyma_without_br_has_no_related (html : pystr) :
  split html (str "<br>") <> [] /\
  (contains (str "<br>") html = false ->
   etyma_related (parse html) = [] /\
   etyma_stars (parse html) = count_stars html /\
   etyma_word (parse html)
   = match match_word html with Some group => strip group | None => [] end).
Proof.
  split.
  - by destruct (split_hd html (str "<br>")) as (first & rest & -> & _).
  - intros H. unfold parse_etyma_html, split. by rewrite (split_from_no_sep _ _ [] H).
Qed.

End EtymaProperties.

Lemma etyma_without_br_has_no_related_witness :
  etyma_related
    (parse_etyma_html (fun _ => []) (fun _ => []) (fun _ => []) (fun _ => 0) (fun _ => [])
       (str "abandon v<BR>abandoned adj<BR>")) = [].
Proof.
  apply (proj2 (etyma_without_br_has_no_related
                  (fun _ => []) (fun _ => []) (fun _ => []) (fun _ => 0) (fun _ => [])
                  (str "abandon v<BR>abandoned adj<BR>"))).
  reflexivity.
Defined.

(** * The import loops *)

Example import_two_items :
  import_collins decode_latin1 (fun html => Fed [Data html]) (fun _ => str "{...}")
    [(list_byte_of_string "ab", list_byte_of_string "@@@LINK= abandon ");
     (list_byte_of_string "abandon", list_byte_of_string "<b>x</b>")] []
  = Some ([{| row_word := str "ab"; row_content := str "{}"; row_is_link := 1;
              row_link_target := Some (str "abandon") |};
           {| row_word := str "abandon"; row_content := str "{...}"; row_is_link := 0;
              row_link_target := None |}], (1, 1)).
Proof. reflexivity. Qed.

Lemma for_each_app {A S : Type} (body : S -> A -> option S) (l1 l2 : list A) (st : S) :
  for_each body (l1 ++ l2) st
  = match for_each body l1 st with Some st' => for_each body l2 st' | None => None end.
Proof.
  revert st. induction l1 as [|x l1 IH]; intros st; simpl; [done|].
  destruct (body st x); [apply IH|done].
Qed.

Section ImportProperties.

Variable decode : list Byte.byte -> option pystr.
Variable feed : pystr -> fed.
Variable dumps_collins : parsed -> pystr.
Variable search_pos search_meaning search_etymology : pystr -> pystr.
Variable search_frequency : pystr -> Z.
Variable search_root : pystr -> pystr.
Variable dumps_etyma : Etyma -> pystr.

Local Abbreviation collins_item := (import_collins_item decode feed dumps_collins).
Local Abbreviation etyma_item :=
  (import_etyma_item decode search_pos search_meaning search_etymology search_frequency
     search_root dumps_etyma).

(** The number of rows marked as links. *)
Local Abbreviation link_rows rows :=
  (Z.of_nat (length (List.filter (fun r => row_is_link r =? 1) rows))).

Lemma import_collins_item_spec table imported links item st' :
  collins_item (table, (imported, links)) item = Some st' ->
  exists row,
    collins_row decode feed dumps_collins item row /\
    st' = (table ++ [row],
           (imported + (if row_is_link row =? 1 then 0 else 1),
            links + (if row_is_link row =? 1 then 1 else 0))).
Proof.
  unfold import_collins_item, collins_row.
  destruct (decode item.1) as [word|] eqn:E1; [|done].
  destruct (decode item.2) as [html|] eqn:E2; [|done].
  destruct (startswith (str "@@@LINK=") html) eqn:E3; intros [= <-].
  - exists {| row_word := word; row_content := str "{}"; row_is_link := 1;
              row_link_target := Some (strip (skipn 8 html)) |}.
    split; [exists word, html; rewrite E3; by split_and!|].
    simpl. by rewrite Z.add_0_r.
  - exists {| row_word := word; row_content := dumps_collins (parse_collins_html feed html);
              row_is_link := 0; row_link_target := None |}.
    split; [exists word, html; rewrite E3; by split_and!|].
    simpl. by rewrite Z.add_0_r.
Qed.

Lemma import_collins_loop items table imported links st' :
  for_each collins_item items (table, (imported, links)) = Some st' ->
  exists new,
    Forall2 (collins_row decode feed dumps_collins) items new /\
    st' = (table ++ new,
           (imported + (Z.of_nat (length new) - link_rows new), links + link_rows new)).
Proof.
  revert table imported links. induction items as [|item items IH];
    intros table imported links; cbn [for_each].
  - intros [= <-]. exists []. split; [constructor|]. simpl.
    rewrite app_nil_r. f_equal. f_equal; lia.
  - destruct (collins_item (table, (imported, links)) item) as [st1|] eqn:E;
      cbv iota beta; [|done].
    apply import_collins_item_spec in E as (row & Hrow & ->).
    intros H. apply IH in H as (new & Hnew & ->).
    exists (row :: new). split; [by constructor|].
    rewrite <- app_assoc. simpl. f_equal.
    destruct (row_is_link row =? 1); simpl length; f_equal; lia.
Qed.

(** X14.  When [import_collins] returns, it has appended to the table one
    row for each item, in order, and has returned the number of rows not
    marked as links and the number of rows marked as links: the two counts
    add up to the number of items. *)
Theorem import_collins_counts_every_item
    (items : list (list Byte.byte * list Byte.byte)) (table table' : list Row)
    (imported links : Z) :
  import_collins decode feed dumps_collins items table = Some (table', (imported, links)) ->
  exists new,
    table' = table ++ new /\ length new = length items /\
    links = link_rows new /\ imported = Z.of_nat (length new) - link_rows new /\
    imported + links = Z.of_nat (length items) /\ 0 <= imported /\ 0 <= links.
Proof.
  intros H. apply import_collins_loop in H as (new & Hnew & [= -> -> ->]).
  exists new. pose proof (Forall2_length _ _ _ Hnew) as Hl.
  pose proof (List.filter_length_le (fun r => row_is_link r =? 1) new).
  split_and!; try done; lia.
Qed.

(** X15.  Each row [import_collins] appends belongs to the item at the same
    position: a redirect entry, one whose text starts with ["@@@LINK="], is
    stored with the content ["{}"], the link mark and the stripped text after
    the prefix as its target, and never reaches the parser; any other entry is
    stored with the serialised result of [parse_collins_html], no link mark
    and no target. *)
Theorem import_collins_rows_follow_items
    (items : list (list Byte.byte * list Byte.byte)) (table table' : list Row)
    (counts : Z * Z) :
  import_collins decode feed dumps_collins items table = Some (table', counts) ->
  exists new, table' = table ++ new /\
    Forall2 (collins_row decode feed dumps_collins) items new.
Proof.
  intros H. apply import_collins_loop in H as (new & Hnew & [= -> _]). by exists new.
Qed.



Lemma import_etyma_item_spec table imported links item st' :
  etyma_item (table, (imported, links)) item = Some st' ->
  (etyma_kept decode item = false /\ st' = (table, (imported, links))) \/
  (etyma_kept decode item = true /\
   exists row, decode item.1 = Some (row_word row) /\
     st' = (table ++ [row],
            (imported + (if row_is_link row =? 1 then 0 else 1),
             links + (if row_is_link row =? 1 then 1 else 0)))).
Proof.
  unfold import_etyma_item, etyma_kept.
  destruct (decode item.1) as [word|] eqn:E1; [|done].
  destruct (decode item.2) as [html|] eqn:E2; [|done].
  destruct (startswith (str "00") word) eqn:E0; [intros [= <-]; by left|].
  destruct (startswith (str "@@@LINK=") html) eqn:E3; intros [= <-]; right;
    (split; [done|]).
  - exists {| row_word := word; row_content := str "{}"; row_is_link := 1;
              row_link_target := Some (strip (skipn 8 html)) |}.
    split; [done|]. simpl. by rewrite Z.add_0_r.
  - eexists {| row_word := word; row_is_link := 0; row_link_target := None |}.
    split; [done|]. simpl. by rewrite Z.add_0_r.
Qed.

Lemma import_etyma_loop items table imported links st' :
  for_each etyma_item items (table, (imported, links)) = Some st' ->
  exists new,
    st' = (table ++ new,
           (imported + (Z.of_nat (length new) - link_rows new), links + link_rows new)) /\
    map Some (map row_word new)
    = map (fun item => decode item.1) (List.filter (etyma_kept decode) items).
Proof.
  revert table imported links. induction items as [|item items IH];
    intros table imported links; cbn [for_each List.filter].
  - intros [= <-]. exists []. simpl. split; [|done].
    rewrite app_nil_r. f_equal. f_equal; lia.
  - destruct (etyma_item (table, (imported, links)) item) as [st1|] eqn:E;
      cbv iota beta; [|done].
    apply import_etyma_item_spec in E as [[-> ->]|(-> & row & Hw & ->)];
      intros H; apply IH in H as (new & -> & Hn).
    + by exists new.
    + exists (row :: new). rewrite <- app_assoc. cbn [map]. rewrite Hw, Hn.
      split; [|done]. simpl.
      destruct (row_is_link row =? 1); simpl length; f_equal; f_equal; lia.
Qed.

(** X17.  When [import_etyma] returns, it has appended one row for each
    item whose word does not start with ["00"], with the words of these
    items in order, and nothing for the other items; the two counts it
    returns add up to the number of rows appended. *)
Theorem import_etyma_skips_notes
    (items : list (list Byte.byte * list Byte.byte)) (table table' : list Row)
    (imported links : Z) :
  import_etyma decode search_pos search_meaning search_etymology search_frequency
    search_root dumps_etyma items table = Some (table', (imported, links)) ->
  exists new,
    table' = table ++ new /\
    map Some (map row_word new)
    = map (fun item => decode item.1) (List.filter (etyma_kept decode) items) /\
    length new = length (List.filter (etyma_kept decode) items) /\
    imported + links = Z.of_nat (length new) /\
    Forall (fun r => startswith (str "00") (row_word r) = false) new.
Proof.
  intros H. apply import_etyma_loop in H as (new & [= -> -> ->] & Hw).
  exists new. split; [done|]. split; [done|].
  assert (length new = length (List.filter (etyma_kept decode) items)) as Hl.
  { apply (f_equal length) in Hw. by rewrite !length_map in Hw. }
  split; [done|]. split; [lia|].
  clear Hl. revert new Hw. induction items as [|item items IH]; intros new Hw.
  - destruct new; [constructor|done].
  - cbn [List.filter] in Hw. unfold etyma_kept at 1 in Hw.
    destruct (decode item.1) as [word|] eqn:E1; cbv iota in Hw; [|by apply IH].
    destruct (startswith (str "00") word) eqn:E0; cbn [negb] in Hw; cbv iota in Hw;
      [by apply IH|].
    destruct new as [|r new]; [done|]. cbn [map] in Hw. rewrite E1 in Hw.
    injection Hw as Hr Hw. constructor; [by rewrite Hr|by apply IH].
Qed.

End ImportProperties.

Lemma import_collins_counts_every_item_witness :
  exists new,
    [{| row_word := str "ab"; row_content := str "{}"; row_is_link := 1;
        row_link_target := Some (str "abandon") |}] = [] ++ new /\
    length new = 1%nat /\
    1 = Z.of_nat (length (List.filter (fun r => row_is_link r =? 1) new)) /\
    0 = Z.of_nat (length new) - Z.of_nat (length (List.filter (fun r => row_is_link r =? 1) new)) /\
    0 + 1 = 1 /\ 0 <= 0 /\ 0 <= 1.
Proof.
  apply (import_collins_counts_every_item decode_latin1 (fun html => Fed [Data html])
           (fun _ => [])
           [(list_byte_of_string "ab", list_byte_of_string "@@@LINK= abandon ")] []).
  reflexivity.
Defined.

Lemma import_collins_rows_follow_items_witness :
  exists new,
    [{| row_word := str "ab"; row_content := str "{}"; row_is_link := 1;
        row_link_target := Some (str "abandon") |}] = [] ++ new /\
    Forall2 (collins_row decode_latin1 (fun html => Fed [Data html]) (fun _ => []))
      [(list_byte_of_string "ab", list_byte_of_string "@@@LINK= abandon ")] new.
Proof.
  apply (import_collins_rows_follow_items decode_latin1 (fun html => Fed [Data html])
           (fun _ => [])
           [(list_byte_of_string "ab", list_byte_of_string "@@@LINK= abandon ")] []
           _ (0, 1)).
  reflexivity.
Defined.

Lemma import_etyma_skips_notes_witness :
  exists new,
    [{| row_word := str "ab"; row_content := str "{}"; row_is_link := 1;
        row_link_target := Some (str "abandon") |}] = [] ++ new /\
    map Some (map row_word new)
    = map (fun item => decode_latin1 item.1)
          (List.filter (etyma_kept decode_latin1)
             [(list_byte_of_string "00README", list_byte_of_string "x");
              (list_byte_of_string "ab", list_byte_of_string "@@@LINK= abandon ")]) /\
    length new = length (List.filter (etyma_kept decode_latin1)
             [(list_byte_of_string "00README", list_byte_of_string "x");
              (list_byte_of_string "ab", list_byte_of_string "@@@LINK= abandon ")]) /\
    0 + 1 = Z.of_nat (length new) /\
    Forall (fun r => startswith (str "00") (row_word r) = false) new.
Proof.
  apply (import_etyma_skips_notes decode_latin1
           (fun _ => []) (fun _ => []) (fun _ => []) (fun _ => 0) (fun _ => []) (fun _ => [])
           [(list_byte_of_string "00README", list_byte_of_string "x");
            (list_byte_of_string "ab", list_byte_of_string "@@@LINK= abandon ")] []).
  reflexivity.
Defined.


(** * The GPT-4 abstract *)

Lemma first_content_line_spec lines :
  let r := first_content_line lines in
  (length r <= 103)%nat /\
  (r = [] <-> forallb skipped_line lines = true) /\
  (r <> [] ->
   (10 <= length r)%nat /\
   exists c, head r = Some c /\ c <> 35%N /\ isspace c = false).
Proof.
  induction lines as [|line0 lines IH]; cbn [first_content_line forallb].
  - cbv zeta. split; [simpl; lia|]. split; [done|]. done.
  - cbv zeta in *. unfold skipped_line at 1.
    set (line := strip line0).
    destruct (negb (truthy line) || startswith (str "#") line) eqn:E1; [by rewrite orb_true_l|].
    apply orb_false_elim in E1 as [E1 E2]. rewrite orb_false_l.
    destruct (length line <? 10)%nat eqn:E3; [done|].
    apply Nat.ltb_ge in E3. cbn [andb].
    destruct line as [|c line'] eqn:El; [simpl in E3; lia|].
    assert (isspace c = false) as Hc.
    { apply (proj1 (strip_trimmed line0)). fold line. by rewrite El. }
    assert (c <> 35%N) as Hh.
    { intros ->. simpl in E2. done. }
    assert (length (firstn 100 (c :: line')) <= 100)%nat as Hle.
    { rewrite length_firstn. apply Nat.le_min_l. }
    assert (10 <= length (firstn 100 (c :: line')))%nat as Hge.
    { rewrite length_firstn. apply Nat.min_glb; [lia|done]. }
    assert (head (firstn 100 (c :: line') ++
                  (if (100 <? length (c :: line'))%nat then str "..." else [])) = Some c)
      as Hhd by done.
    rewrite Hhd, length_app.
    set (n := length (firstn 100 (c :: line'))) in *.
    set (tail := if (100 <? length (c :: line'))%nat then str "..." else []).
    assert (length tail <= 3)%nat as Ht by (unfold tail; destruct (100 <? _)%nat; simpl; lia).
    split; [lia|]. split.
    + split; [|done]. intros H. apply (f_equal length) in H.
      rewrite length_app in H. fold n in H. simpl in H. lia.
    + intros _. split; [lia|]. exists c. by split.
Qed.

(** X18.  The abstract [extract_gpt4_def] takes from the GPT-4 text has at
    most 103 characters.  It is empty exactly when every line, once
    stripped, is empty, starts with [#] or has fewer than 10 characters;
    otherwise it has at least 10 characters and starts with a character that
    is neither [#] nor whitespace. *)
Theorem gpt4_abstract_is_bounded (content_str : pystr) :
  let r := extract_gpt4_def content_str in
  (length r <= 103)%nat /\
  (r = [] <-> forallb skipped_line (split content_str [10%N]) = true) /\
  (r <> [] ->
   (10 <= length r)%nat /\
   exists c, head r = Some c /\ c <> 35%N /\ isspace c = false).
Proof. apply first_content_line_spec. Qed.

Lemma gpt4_abstract_is_bounded_witness :
  (10 <= length (extract_gpt4_def (str "# abandon" ++ [10%N] ++ str "  to leave a place ")))%nat.
Proof.
  apply (proj2 (proj2 (gpt4_abstract_is_bounded
                         (str "# abandon" ++ [10%N] ++ str "  to leave a place ")))).
  vm_compute. discriminate.
Defined.
